(** * The observer pattern of [src/index.ts], embedded and verified

    The script declares a [Subject] interface, its implementation
    [ConcreteSubject] (a number [state] and an array [observers]), an
    [Observer] interface and two implementations, [ConcreteObserverA] and
    [ConcreteObserverB].  Every method writes to the console; the subject's
    methods also mutate [this].

    The embedding is a state-and-output monad over the object a method works
    on.  The only loop of the program, the [for ... of] in [notify], is run
    through the array iterator protocol with an explicit step budget. *)

From Stdlib Require Import ZArith Lia Ascii.
From Stdlib Require Import Floats.SpecFloat.
From stdpp Require Import base list strings pretty.

Local Open Scope Z_scope.

(** ** Data model *)

(** The classes implementing [Observer] in the script. *)
Inductive ObserverClass := ConcreteObserverA | ConcreteObserverB.

(** An observer object.  Neither class declares a field, so an object is its
    allocation identity [oid] and its class; [===] on two references is
    equality of these records. *)
Record Observer := mkObserver { oid : nat; oclass : ObserverClass }.

(** What [instanceof ConcreteSubject] inspects: the class an object of
    interface type [Subject] was built from.  [ForeignSubject] stands for
    every other implementation of the interface. *)
Inductive SubjectClass := ConcreteSubject | ForeignSubject.

(** An object of interface type [Subject].  For [ConcreteSubject] the fields
    are the two declared at lines 24 and 31; [state] holds an integer-valued
    number (the script only ever stores [0] or a [Math.floor] result).  In a
    template literal such a number prints in decimal, which is what [pretty]
    does on [Z] (the two agree below [10^21]). *)
Record Subject := mkSubject {
  class : SubjectClass;
  state : Z;
  observers : list Observer
}.

(** [new ConcreteSubject()]: the field initialisers of lines 24 and 31. *)
Definition new_ConcreteSubject : Subject :=
  {| class := ConcreteSubject; state := 0; observers := [] |}.

(** What a run leaves behind for an outside observer: a console line, or the
    entry into [observer.update(arg)]. *)
Inductive event :=
  | Console (line : string)
  | Call (observer : Observer) (arg : Subject).

#[global] Instance ObserverClass_eq_dec : EqDecision ObserverClass.
Proof. solve_decision. Defined.
#[global] Instance Observer_eq_dec : EqDecision Observer.
Proof. solve_decision. Defined.
#[global] Instance SubjectClass_eq_dec : EqDecision SubjectClass.
Proof. solve_decision. Defined.
#[global] Instance Subject_eq_dec : EqDecision Subject.
Proof. solve_decision. Defined.
#[global] Instance event_eq_dec : EqDecision event.
Proof. solve_decision. Defined.

(** ** The monad of method bodies

    A method body runs on the object its receiver (or its argument) refers
    to, may replace fields of it, and appends to the output.  [None] is a
    run that does not return to its caller: the loop budget was used up
    before the body finished, or an [update] method of a class the script
    does not declare threw. *)
Definition M (A : Type) : Type := Subject → option (A * Subject * list event).

#[global] Instance M_ret : MRet M := λ A a s, Some (a, s, []).
#[global] Instance M_bind : MBind M := λ A B f m s,
  match m s with
  | Some (a, s', out) =>
      match f a s' with
      | Some (b, s'', out') => Some (b, s'', out ++ out')
      | None => None
      end
  | None => None
  end.

Definition get_this : M Subject := λ s, Some (s, s, []).
Definition set_state (v : Z) : M unit := λ s,
  Some (tt, {| class := class s; state := v; observers := observers s |}, []).
Definition set_observers (l : list Observer) : M unit := λ s,
  Some (tt, {| class := class s; state := state s; observers := l |}, []).
Definition emit (e : event) : M unit := λ s, Some (tt, s, [e]).
Definition console_log (line : string) : M unit := emit (Console line).
Definition out_of_budget {A} : M A := λ _, None.

(** ** Array methods used by the script *)

(** [Array.prototype.includes]: is some element the searched reference? *)
Fixpoint includes (l : list Observer) (x : Observer) : bool :=
  match l with
  | [] => false
  | y :: l' => if decide (y = x) then true else includes l' x
  end.

(** [Array.prototype.indexOf]: index of the first element equal to the
    searched reference, [-1] when there is none. *)
Fixpoint indexOf_from (k : Z) (l : list Observer) (x : Observer) : Z :=
  match l with
  | [] => -1
  | y :: l' => if decide (y = x) then k else indexOf_from (k + 1) l' x
  end.
Definition indexOf (l : list Observer) (x : Observer) : Z := indexOf_from 0 l x.

(** [Array.prototype.push] of one element. *)
Definition push (l : list Observer) (x : Observer) : list Observer := l ++ [x].

(** [Array.prototype.splice(start, deleteCount)] without inserted items: a
    negative [start] counts from the end, both arguments are clamped to the
    array. *)
Definition splice (l : list Observer) (start deleteCount : Z) : list Observer :=
  let len := Z.of_nat (length l) in
  let actualStart := if start <? 0 then Z.max (len + start) 0 else Z.min start len in
  let actualDeleteCount := Z.min (Z.max deleteCount 0) (len - actualStart) in
  take (Z.to_nat actualStart) l ++ drop (Z.to_nat (actualStart + actualDeleteCount)) l.

(** ** Observers (lines 93-107) *)

Definition instanceof (subject : Subject) (c : SubjectClass) : bool :=
  bool_decide (class subject = c).

(** [ConcreteObserverA.update(subject)]. *)
Definition ConcreteObserverA_update : M unit :=
  subject ← get_this;
  if instanceof subject ConcreteSubject && (state subject <? 7)
  then console_log ("ConcreteObserverA: Reacted to the event. New value: "
                      +:+ pretty (state subject))
  else mret tt.

(** [ConcreteObserverB.update(subject)]. *)
Definition ConcreteObserverB_update : M unit :=
  subject ← get_this;
  if instanceof subject ConcreteSubject && (state subject >=? 7)
  then console_log ("ConcreteObserverB: Reacted to the event. New value: "
                      +:+ pretty (state subject))
  else mret tt.

(** [observer.update(subject)]: dispatch on the class of the receiver. *)
Definition update (observer : Observer) : M unit :=
  match oclass observer with
  | ConcreteObserverA => ConcreteObserverA_update
  | ConcreteObserverB => ConcreteObserverB_update
  end.

(** ** ConcreteSubject (lines 19-79) *)

Definition subscribe (observer : Observer) : M unit :=
  this ← get_this;
  let isExist := includes (observers this) observer in
  if isExist
  then console_log "Subject: Observer has been Subscribed already."
  else
    console_log "Subject: Subscribed an observer.";;
    set_observers (push (observers this) observer).

Definition unsubscribe (observer : Observer) : M unit :=
  this ← get_this;
  let observerIndex := indexOf (observers this) observer in
  if observerIndex =? -1
  then console_log "Subject: Nonexistent observer."
  else
    set_observers (splice (observers this) observerIndex 1);;
    console_log "Subject: Unsubscribed an observer.".

(** The call [observer.update(this)] made by the loop body (line 62): the
    entry is recorded with the object passed, then the method runs on that
    object.  [Observer] is an open interface (lines 84-87) and [subscribe]
    takes any implementation of it, so which code the call runs is decided
    by the object: [dispatch] gives, for each observer object, the body of
    its [update] method.  Such a body may do anything a method body can:
    write the public [state], call [subscribe] or [unsubscribe], not
    return. *)
Definition call_update_with (dispatch : Observer → M unit) (observer : Observer)
  : M unit :=
  this ← get_this;
  emit (Call observer this);;
  dispatch observer.

(** The call on a heap that holds only objects of the two classes of the
    script: the method is found from the class, by [update]. *)
Definition call_update (observer : Observer) : M unit :=
  call_update_with update observer.

(** [for (const observer of this.observers) body(observer)].  The array
    iterator keeps an index into the live array: each step reads the current
    length, stops when the index has reached it, and otherwise hands out the
    element at the index.  [budget] bounds the number of steps. *)
Fixpoint for_of_observers (body : Observer → M unit) (budget : nat) (index : nat)
  : M unit :=
  match budget with
  | O => out_of_budget
  | S budget' =>
      this ← get_this;
      match observers this !! index with
      | None => mret tt
      | Some observer =>
          body observer;;
          for_of_observers body budget' (S index)
      end
  end.

(** [notify()] (lines 59-64), for any observer objects. *)
Definition notify_with (dispatch : Observer → M unit) (budget : nat) : M unit :=
  console_log "Subject: Notifying observers...";;
  for_of_observers (call_update_with dispatch) budget 0%nat.

(** [notify()] when every observer is an object of the two classes of the
    script. *)
Definition notify (budget : nat) : M unit := notify_with update budget.

(** ** Numbers of [someBusinessLogic] (line 74)

    [Math.random() * (10 + 1)] is arithmetic on IEEE 754 binary64 values;
    the Standard Library's [spec_float] operations at precision 53 give it
    bit for bit. *)
Definition prec : Z := 53.
Definition emax : Z := 1024.

(** The number denoted by an integer literal. *)
Definition number_of_Z (z : Z) : spec_float := binary_normalize prec emax z 0 false.

(** The factor [(10 + 1)]. *)
Definition eleven : spec_float := SFadd prec emax (number_of_Z 10) (number_of_Z 1).

(** What [Math.random()] may return: a number of positive sign, at least
    [0] and less than [1]. *)
Definition is_Math_random (r : spec_float) : bool :=
  match r with
  | S754_zero false => true
  | S754_finite false m e => bounded prec emax m e && SFltb r (number_of_Z 1)
  | _ => false
  end.

(** [Math.floor] on a zero or a finite number, as the integer it returns.
    [Math.floor] hands NaN and the infinities back unchanged; these have no
    integer value and are sent to [0] here ([floor_product_range] shows that
    line 74 never passes one). *)
Definition Math_floor (x : spec_float) : Z :=
  match x with
  | S754_finite s m e => Z.shiftl (cond_Zopp s (Z.pos m)) e
  | _ => 0
  end.

(** [someBusinessLogic()] (lines 72-78), with the value drawn by
    [Math.random()] as a parameter, for any observer objects. *)
Definition someBusinessLogic_with (dispatch : Observer → M unit)
    (random : spec_float) (budget : nat) : M unit :=
  console_log (String "010"%char "Subject: I'm doing something important.");;
  set_state (Math_floor (SFmul prec emax random eleven));;
  this ← get_this;
  console_log ("Subject: My state has just changed to: " +:+ pretty (state this));;
  notify_with dispatch budget.

(** [someBusinessLogic()] when every observer is an object of the two
    classes of the script. *)
Definition someBusinessLogic (random : spec_float) (budget : nat) : M unit :=
  someBusinessLogic_with update random budget.

(** ** Clients

    The public methods of a [ConcreteSubject], as a client may call them. *)
Inductive operation :=
  | Subscribe (observer : Observer)
  | Unsubscribe (observer : Observer)
  | Notify
  | SomeBusinessLogic (random : spec_float).

Definition perform (budget : nat) (op : operation) : M unit :=
  match op with
  | Subscribe observer => subscribe observer
  | Unsubscribe observer => unsubscribe observer
  | Notify => notify budget
  | SomeBusinessLogic random => someBusinessLogic random budget
  end.


(** The draw of a [SomeBusinessLogic] call is a value [Math.random()] can
    return. *)
Definition well_formed (op : operation) : bool :=
  match op with
  | SomeBusinessLogic random => is_Math_random random
  | _ => true
  end.

(** One [subscribe] call per element, in order. *)
Fixpoint subscribe_all (l : list Observer) : M unit :=
  match l with
  | [] => mret tt
  | observer :: l' => subscribe observer;; subscribe_all l'
  end.

(** The subjects a client can build: a fresh one, then any calls that
    return. *)
Inductive reachable : Subject → Prop :=
  | reachable_new : reachable new_ConcreteSubject
  | reachable_step (s s' : Subject) (budget : nat) (op : operation) (out : list event) :
      reachable s → well_formed op = true →
      perform budget op s = Some (tt, s', out) → reachable s'.

(** ** Vocabulary of the statements *)

Definition with_observers (s : Subject) (l : list Observer) : Subject :=
  {| class := class s; state := state s; observers := l |}.

Definition with_state (s : Subject) (v : Z) : Subject :=
  {| class := class s; state := v; observers := observers s |}.

(** The output of [observer.update(subject)]. *)
Definition reaction (observer : Observer) (subject : Subject) : list event :=
  match update observer subject with
  | Some (_, _, out) => out
  | None => []
  end.

(** Does [observer.update(subject)] write its reaction line? *)
Definition reacts (observer : Observer) (subject : Subject) : bool :=
  bool_decide (reaction observer subject ≠ []).

(** The receivers of the [update] calls recorded in an output, in order. *)
Definition invoked (out : list event) : list Observer :=
  omap (λ e, match e with Call o _ => Some o | Console _ => None end) out.

(** The subscriber list after one [subscribe] call. *)
Definition subscribed (l : list Observer) (observer : Observer) : list Observer :=
  if bool_decide (observer ∈ l) then l else l ++ [observer].

(** The shift count [shr_fexp] applies to a mantissa [m] at exponent [e]. *)
Definition shift_count (m e : Z) : Z :=
  Z.max 0 (fexp prec emax (Zdigits2 m + e) - e).

(** The state line 74 stores for a drawn number. *)
Definition drawn_state (random : spec_float) : Z :=
  Math_floor (SFmul prec emax random eleven).

(** For the number [r = m * 2^e], the floor of [(11 * m + slack) * 2^e] in
    exact arithmetic; with [slack = 0] this is the floor of eleven times
    [r]. *)
Definition exact_floor (slack : Z) (r : spec_float) : Z :=
  match r with
  | S754_finite false m e => Z.shiftl (11 * Z.pos m + slack) e
  | _ => 0
  end.

(** A number [Math.random()] can return that makes [k] the new state:
    [(2k + 1) / 22], rounded. *)
Definition draw_for (k : Z) : spec_float :=
  SFdiv prec emax (number_of_Z (2 * k + 1)) (number_of_Z 22).

(** ** Sample objects

    The two observers of the script (lines 117 and 121) and a few subjects
    and draws on which the statements below are exercised. *)
Definition observer1 : Observer := mkObserver 1 ConcreteObserverA.
Definition observer2 : Observer := mkObserver 2 ConcreteObserverB.

Definition both_subscribed : Subject :=
  {| class := ConcreteSubject; state := 3; observers := [observer1; observer2] |}.

Definition subscribed_twice : Subject :=
  {| class := ConcreteSubject; state := 9;
     observers := [observer2; observer1; observer2] |}.

Definition foreign_subject : Subject :=
  {| class := ForeignSubject; state := 3; observers := [observer1] |}.

(** The number [0.5]. *)
Definition one_half : spec_float := S754_finite false 4503599627370496 (-53).

(** The client code (lines 113-131), run on the subject line 114 creates;
    the three draws of its [someBusinessLogic] calls are parameters. *)
Definition client_code (random1 random2 random3 : spec_float) (budget : nat) : M unit :=
  console_log "-- Create subject instance";;
  console_log "-- Create observer A";;
  subscribe observer1;;
  console_log "-- Create observer B";;
  subscribe observer2;;
  console_log "-- Do some logic";;
  someBusinessLogic random1 budget;;
  someBusinessLogic random2 budget;;
  console_log "-- Unsubscribe observer B";;
  unsubscribe observer2;;
  someBusinessLogic random3 budget.

(** The console lines of an output, in order. *)
Definition console_lines (out : list event) : list string :=
  omap (λ e, match e with Console line => Some line | Call _ _ => None end) out.

(** What the console shows after a run from a subject. *)
Definition console_of (m : M unit) (s : Subject) : option (list string) :=
  match m s with
  | Some (_, _, out) => Some (console_lines out)
  | None => None
  end.

(** One call per operation, in order. *)
Fixpoint perform_all (budget : nat) (ops : list operation) : M unit :=
  match ops with
  | [] => mret tt
  | op :: ops' => perform budget op;; perform_all budget ops'
  end.

(** The operations that manage the subscriber list. *)
Definition is_subscription (op : operation) : bool :=
  match op with
  | Subscribe _ | Unsubscribe _ => true
  | Notify | SomeBusinessLogic _ => false
  end.

(** The line an observer of class [c] writes when it reacts to state [v]
    (lines 96 and 104). *)
Definition reaction_line (c : ObserverClass) (v : Z) : string :=
  match c with
  | ConcreteObserverA => "ConcreteObserverA: Reacted to the event. New value: " +:+ pretty v
  | ConcreteObserverB => "ConcreteObserverB: Reacted to the event. New value: " +:+ pretty v
  end.

(** The class whose observers react to state [v]. *)
Definition reacting_class (v : Z) : ObserverClass :=
  if v <? 7 then ConcreteObserverA else ConcreteObserverB.

(** The three lines [someBusinessLogic] and [notify] write before any
    observer is called, for new state [v]. *)
Definition business_lines (v : Z) : list string :=
  [String "010"%char "Subject: I'm doing something important.";
   "Subject: My state has just changed to: " +:+ pretty v;
   "Subject: Notifying observers..."].

(** The double nearest to [3 / 11]; it lies below [3 / 11]. *)
Definition below_three_elevenths : spec_float :=
  SFdiv prec emax (number_of_Z 3) (number_of_Z 11).

(** The marker of a call [observer.update(this)]. *)
Definition mark_call (observer : Observer) : M unit :=
  this ← get_this;
  emit (Call observer this).

(** [update(this)] on each element of a list, one call after the other:
    what the loop of [notify] amounts to when no call disturbs it. *)
Fixpoint updates_in_turn (dispatch : Observer → M unit) (l : list Observer) : M unit :=
  match l with
  | [] => mret tt
  | observer :: l' =>
      mark_call observer;; dispatch observer;; updates_in_turn dispatch l'
  end.

(** A third object of class [ConcreteObserverA]. *)
Definition observer3 : Observer := mkObserver 3 ConcreteObserverA.

(** Two objects of classes a client might write against the interface.
    Their code is given by the tables below, which do not consult the
    [oclass] field of these two. *)
Definition leaver : Observer := mkObserver 7 ConcreteObserverA.

(** [update(subject) { subject.unsubscribe(this); }] for [leaver], the
    methods of the script for every other object. *)
Definition leaving_dispatch (observer : Observer) : M unit :=
  if decide (observer = leaver) then unsubscribe observer else update observer.


Definition with_leaver : Subject :=
  {| class := ConcreteSubject; state := 3; observers := [leaver; observer1; observer2] |}.


(** The number [z * 2^-53]; for [2^52 <= z < 2^53] these are the binary64
    numbers of [[0.5, 1)], all of them, equally spaced. *)
Definition upper_half (z : Z) : spec_float := S754_finite false (Z.to_pos z) (-53).

(** Unfolds the operations of [M], leaving the methods folded. *)
Tactic Notation "unfold_M" :=
  unfold mbind, M_bind, mret, M_ret, get_this, set_state, set_observers,
    console_log, emit.
Tactic Notation "unfold_M" "in" hyp(H) :=
  unfold mbind, M_bind, mret, M_ret, get_this, set_state, set_observers,
    console_log, emit in H.

(** ** Facts about the array methods *)

Lemma includes_elem_of (l : list Observer) (x : Observer) :
  includes l x = bool_decide (x ∈ l).
Proof.
  induction l as [|y l IH].
  - simpl includes. case_bool_decide as Hin; [|done]. by apply elem_of_nil in Hin.
  - simpl includes. destruct (decide (y = x)) as [->|Hne].
    + rewrite bool_decide_eq_true_2; [done|]. apply elem_of_cons. by left.
    + rewrite IH. apply bool_decide_ext. rewrite elem_of_cons.
      split; [by right|]. intros [Heq|Hin]; [congruence|done].
Qed.

Lemma indexOf_from_absent (k : Z) (l : list Observer) (x : Observer) :
  x ∉ l → indexOf_from k l x = -1.
Proof.
  revert k. induction l as [|y l IH]; intros k Hx; simpl; [done|].
  apply not_elem_of_cons in Hx as [Hne Hx].
  destruct (decide (y = x)); [congruence|]. by apply IH.
Qed.

Lemma indexOf_from_first (k : Z) (l1 l2 : list Observer) (x : Observer) :
  x ∉ l1 → indexOf_from k (l1 ++ x :: l2) x = k + Z.of_nat (length l1).
Proof.
  revert k. induction l1 as [|y l1 IH]; intros k Hx; simpl.
  - destruct (decide (x = x)); [lia|done].
  - apply not_elem_of_cons in Hx as [Hne Hx].
    destruct (decide (y = x)); [congruence|]. rewrite IH by done. lia.
Qed.

Lemma indexOf_from_lower (k : Z) (l : list Observer) (x : Observer) :
  indexOf_from k l x = -1 ∨ k <= indexOf_from k l x.
Proof.
  revert k. induction l as [|y l IH]; intros k; simpl; [by left|].
  destruct (decide (y = x)); [right; lia|].
  destruct (IH (k + 1)) as [->|?]; [by left|right; lia].
Qed.

Lemma indexOf_absent (l : list Observer) (x : Observer) :
  indexOf l x = -1 ↔ x ∉ l.
Proof.
  split; [|apply indexOf_from_absent].
  intros Hidx Hin. apply list_elem_of_split_l in Hin as (l1 & l2 & -> & Hl1).
  unfold indexOf in Hidx. rewrite indexOf_from_first in Hidx by done. lia.
Qed.

Lemma splice_one (l1 l2 : list Observer) (x : Observer) :
  splice (l1 ++ x :: l2) (Z.of_nat (length l1)) 1 = l1 ++ l2.
Proof.
  unfold splice. rewrite length_app. simpl length.
  destruct (Z.ltb_spec (Z.of_nat (length l1)) 0) as [?|_]; [lia|].
  rewrite Z.min_l by lia. rewrite Z.max_l by lia. rewrite Z.min_l by lia.
  rewrite Nat2Z.id. rewrite take_app_length.
  replace (Z.to_nat (Z.of_nat (length l1) + 1)) with (length l1 + 1)%nat by lia.
  rewrite drop_app_add'; done.
Qed.

(** ** Runs of [subscribe] and [unsubscribe] *)

Lemma with_observers_same (s : Subject) : with_observers s (observers s) = s.
Proof. by destruct s. Qed.

Lemma subscribe_present (observer : Observer) (s : Subject) :
  observer ∈ observers s →
  subscribe observer s
  = Some (tt, s, [Console "Subject: Observer has been Subscribed already."]).
Proof.
  intros Hin. unfold subscribe. unfold_M.
  rewrite includes_elem_of, bool_decide_eq_true_2 by done. reflexivity.
Qed.

Lemma subscribe_fresh (observer : Observer) (s : Subject) :
  observer ∉ observers s →
  subscribe observer s
  = Some (tt, with_observers s (observers s ++ [observer]),
          [Console "Subject: Subscribed an observer."]).
Proof.
  intros Hin. unfold subscribe. unfold_M.
  rewrite includes_elem_of, bool_decide_eq_false_2 by done. reflexivity.
Qed.

Lemma unsubscribe_absent (observer : Observer) (s : Subject) :
  observer ∉ observers s →
  unsubscribe observer s = Some (tt, s, [Console "Subject: Nonexistent observer."]).
Proof.
  intros Hin. unfold unsubscribe. unfold_M.
  rewrite (proj2 (indexOf_absent _ _) Hin). reflexivity.
Qed.

Lemma unsubscribe_first (observer : Observer) (s : Subject) (l1 l2 : list Observer) :
  observers s = l1 ++ observer :: l2 → observer ∉ l1 →
  unsubscribe observer s
  = Some (tt, with_observers s (l1 ++ l2), [Console "Subject: Unsubscribed an observer."]).
Proof.
  intros Hl Hl1. unfold unsubscribe. unfold_M.
  rewrite Hl. unfold indexOf. rewrite indexOf_from_first by done.
  rewrite Z.add_0_l.
  destruct (Z.eqb_spec (Z.of_nat (length l1)) (-1)) as [?|_]; [lia|].
  rewrite splice_one. reflexivity.
Qed.

(** ** Runs of [update] and of the loop *)

Lemma update_frame (observer : Observer) (subject : Subject) :
  update observer subject = Some (tt, subject, reaction observer subject).
Proof.
  unfold reaction, update.
  destruct (oclass observer);
    unfold ConcreteObserverA_update, ConcreteObserverB_update; unfold_M;
    match goal with |- context [if ?c then _ else _] => destruct c end;
    reflexivity.
Qed.

Lemma invoked_reaction (observer : Observer) (subject : Subject) :
  invoked (reaction observer subject) = [].
Proof.
  unfold reaction, update.
  destruct (oclass observer);
    unfold ConcreteObserverA_update, ConcreteObserverB_update; unfold_M;
    match goal with |- context [if ?c then _ else _] => destruct c end;
    reflexivity.
Qed.

Lemma call_update_frame (observer : Observer) (s : Subject) :
  call_update observer s = Some (tt, s, Call observer s :: reaction observer s).
Proof.
  unfold call_update, call_update_with. unfold_M.
  rewrite update_frame. reflexivity.
Qed.

Section for_of.
(** A loop body that hands the object back as it received it. *)
Variable body : Observer → M unit.
Variable out : Observer → Subject → list event.
Hypothesis body_frame : ∀ o s, body o s = Some (tt, s, out o s).

Lemma for_of_observers_from (budget index : nat) (s : Subject) :
  (length (observers s) - index < budget)%nat →
  for_of_observers body budget index s
  = Some (tt, s, concat (map (λ o, out o s) (drop index (observers s)))).
Proof.
  revert index. induction budget as [|budget IH]; intros index Hlen.
  - lia.
  - simpl. unfold_M.
    destruct (observers s !! index) as [o|] eqn:Hlook.
    + pose proof (lookup_lt_Some _ _ _ Hlook) as Hlt.
      rewrite body_frame. rewrite IH by lia.
      rewrite (drop_S _ _ _ Hlook). reflexivity.
    + apply lookup_ge_None in Hlook. by rewrite drop_ge by lia.
Qed.

Lemma for_of_observers_short (budget index : nat) (s : Subject) :
  (budget + index <= length (observers s))%nat →
  for_of_observers body budget index s = None.
Proof.
  revert index. induction budget as [|budget IH]; intros index Hlen; [done|].
  simpl. unfold_M.
  destruct (lookup_lt_is_Some_2 (observers s) index) as [o Hlook]; [lia|].
  rewrite Hlook, body_frame, IH by lia. reflexivity.
Qed.
End for_of.

Lemma notify_run (budget : nat) (s : Subject) :
  (length (observers s) < budget)%nat →
  notify budget s
  = Some (tt, s,
          Console "Subject: Notifying observers..."
            :: concat (map (λ o, Call o s :: reaction o s) (observers s))).
Proof.
  intros Hlen. unfold notify, notify_with. unfold_M.
  rewrite (for_of_observers_from call_update (λ o s, Call o s :: reaction o s)
             call_update_frame) by lia.
  reflexivity.
Qed.

Lemma notify_short (budget : nat) (s : Subject) :
  (budget <= length (observers s))%nat → notify budget s = None.
Proof.
  intros Hlen. unfold notify, notify_with. unfold_M.
  rewrite (for_of_observers_short call_update (λ o s, Call o s :: reaction o s)
             call_update_frame) by lia.
  reflexivity.
Qed.

Lemma invoked_app (out1 out2 : list event) :
  invoked (out1 ++ out2) = invoked out1 ++ invoked out2.
Proof. apply omap_app. Qed.

Lemma invoked_calls (s : Subject) (l : list Observer) :
  invoked (concat (map (λ o, Call o s :: reaction o s) l)) = l.
Proof.
  induction l as [|o l IH]; [done|].
  change (invoked ((Call o s :: reaction o s)
                     ++ concat (map (λ o, Call o s :: reaction o s) l)) = o :: l).
  rewrite invoked_app, IH.
  change (o :: invoked (reaction o s) ++ l = o :: l).
  by rewrite invoked_reaction.
Qed.

Lemma calls_arg (s : Subject) (l : list Observer) (o : Observer) (arg : Subject) :
  Call o arg ∈ concat (map (λ o, Call o s :: reaction o s) l) → arg = s.
Proof.
  induction l as [|o' l IH]; simpl; [by intros ?%elem_of_nil|].
  rewrite elem_of_cons, elem_of_app. intros [Heq|[Hin|Hin]]; [congruence| |by apply IH].
  exfalso. assert (Hi : o ∈ invoked (reaction o' s)).
  { unfold invoked. apply list_elem_of_omap. by exists (Call o arg). }
  rewrite invoked_reaction in Hi. by apply elem_of_nil in Hi.
Qed.

Lemma count_NoDup (l : list Observer) (o : Observer) :
  NoDup l → length (filter (λ x, x = o) l) = if bool_decide (o ∈ l) then 1%nat else 0%nat.
Proof.
  induction 1 as [|x l Hx Hnd IH]; [done|].
  rewrite filter_cons. destruct (decide (x = o)) as [->|Hne].
  - rewrite bool_decide_eq_true_2 by (apply elem_of_cons; by left).
    simpl. rewrite IH, bool_decide_eq_false_2 by done. done.
  - rewrite IH. apply (f_equal (λ b : bool, if b then 1%nat else 0%nat)).
    apply bool_decide_ext. rewrite elem_of_cons.
    split; [by right|]. intros [Heq|Hin]; [congruence|done].
Qed.

(** ** Binary64 rounding of the product at line 74

    [SFmul] multiplies the two mantissas exactly and hands the product to
    [binary_round_aux], which shifts it right to 53 digits, rounds to
    nearest, and renormalises.  The lemmas below bound what the shift and the
    rounding can add. *)

Lemma iter_pos_nat {A} (f : A → A) (p : positive) (x : A) :
  SpecFloat.iter_pos f p x = Nat.iter (Pos.to_nat p) f x.
Proof.
  revert x. induction p as [p IH|p IH|]; intros x; cbn [SpecFloat.iter_pos].
  - rewrite !IH, Pos2Nat.inj_xI, <- Nat.iter_succ_r, <- Nat.iter_add.
    f_equal. lia.
  - rewrite !IH, Pos2Nat.inj_xO, <- Nat.iter_add. f_equal. lia.
  - reflexivity.
Qed.

Lemma shr_1_m (mrs : shr_record) :
  0 <= shr_m mrs → shr_m (shr_1 mrs) = shr_m mrs / 2.
Proof.
  destruct mrs as [m r s]. cbn [shr_m]. intros Hm. rewrite <- Z.div2_div.
  destruct m as [|[p|p|]|]; simpl; (done || lia).
Qed.

Lemma shr_1_r (mrs : shr_record) :
  0 <= shr_m mrs → shr_r (shr_1 mrs) = Z.odd (shr_m mrs).
Proof.
  destruct mrs as [m r s]. cbn [shr_m]. intros Hm.
  destruct m as [|[p|p|]|]; simpl; (done || lia).
Qed.

Lemma shr_iter_m (k : nat) (mrs : shr_record) :
  0 <= shr_m mrs → shr_m (Nat.iter k shr_1 mrs) = shr_m mrs / 2 ^ Z.of_nat k.
Proof.
  intros Hm. induction k as [|k IH].
  - simpl Nat.iter. by rewrite Z.div_1_r.
  - rewrite Nat.iter_succ, shr_1_m by (rewrite IH; apply Z.div_pos; lia).
    rewrite IH, Z.div_div by lia. f_equal.
    rewrite Nat2Z.inj_succ, Z.pow_succ_r by lia. lia.
Qed.

Lemma shr_iter_r (k : nat) (mrs : shr_record) :
  0 <= shr_m mrs →
  shr_r (Nat.iter (S k) shr_1 mrs) = Z.odd (shr_m mrs / 2 ^ Z.of_nat k).
Proof.
  intros Hm. rewrite Nat.iter_succ, shr_1_r; rewrite shr_iter_m by done.
  - done.
  - apply Z.div_pos; lia.
Qed.

(** Rounding to nearest moves the shifted mantissa up by at most one, and
    only when the last bit shifted out was set. *)
Lemma round_nearest_even_bounds (mrs : shr_record) :
  shr_m mrs <= round_nearest_even (shr_m mrs) (loc_of_shr_record mrs)
            <= shr_m mrs + (if shr_r mrs then 1 else 0).
Proof.
  destruct mrs as [m [|] [|]]; cbn [shr_m shr_r loc_of_shr_record round_nearest_even];
    try destruct (Z.even m); lia.
Qed.

Lemma digits2_pos_size (p : positive) : digits2_pos p = Pos.size p.
Proof. induction p; simpl; congruence. Qed.

Lemma digits2_pos_le (p : positive) (k : Z) :
  Z.pos p < 2 ^ k → Z.pos (digits2_pos p) <= k.
Proof.
  intros Hp. rewrite digits2_pos_size.
  destruct (Z.le_gt_cases (Z.pos (Pos.size p)) k) as [|Hk]; [done|exfalso].
  pose proof (Pos.size_le p) as Hle.
  assert (0 <= k).
  { destruct (Z.le_gt_cases 0 k); [done|]. rewrite Z.pow_neg_r in Hp by lia. lia. }
  assert (2 ^ Z.pos (Pos.size p) <= 2 * Z.pos p).
  { rewrite <- Pos2Z.inj_pow. lia. }
  assert (2 ^ (k + 1) <= 2 ^ Z.pos (Pos.size p)) by (apply Z.pow_le_mono_r; lia).
  rewrite Z.pow_add_r in * by lia. lia.
Qed.

Lemma digits2_pos_gt (p : positive) : Z.pos p < 2 ^ Z.pos (digits2_pos p).
Proof.
  rewrite digits2_pos_size. pose proof (Pos.size_gt p).
  rewrite <- Pos2Z.inj_pow. lia.
Qed.

Lemma shr_fexp_exact (m e : Z) :
  0 <= m →
  ∃ mrs, shr_fexp prec emax m e loc_Exact = (mrs, e + shift_count m e)
    ∧ shr_m mrs = m / 2 ^ shift_count m e
    ∧ (shr_r mrs = true →
       0 < shift_count m e ∧ Z.odd (m / 2 ^ (shift_count m e - 1)) = true).
Proof.
  intros Hm. unfold shr_fexp, shift_count, shr. cbn [shr_record_of_loc].
  destruct (fexp prec emax (Zdigits2 m + e) - e) as [|p|p] eqn:Hn.
  - eexists. split; [by rewrite Z.add_0_r|]. cbn. split; [by rewrite Z.div_1_r|done].
  - rewrite iter_pos_nat. eexists. split; [by rewrite Z.max_r by lia|].
    rewrite Z.max_r by lia. rewrite shr_iter_m by (cbn; lia). cbn [shr_m].
    split; [by rewrite positive_nat_Z|]. intros Hr. split; [lia|].
    destruct (Pos.to_nat p) as [|k] eqn:Hk; [lia|].
    rewrite shr_iter_r in Hr by (cbn; lia). cbn [shr_m] in Hr.
    replace (Z.pos p - 1) with (Z.of_nat k) by lia. done.
  - eexists. split; [by rewrite Z.max_l, Z.add_0_r by lia|]. rewrite Z.max_l by lia.
    cbn. split; [by rewrite Z.div_1_r|done].
Qed.

Lemma round_shifted_bounds (m n : Z) (mrs : shr_record) :
  0 <= m → 0 <= n →
  shr_m mrs = m / 2 ^ n →
  (shr_r mrs = true → 0 < n ∧ Z.odd (m / 2 ^ (n - 1)) = true) →
  let m' := round_nearest_even (shr_m mrs) (loc_of_shr_record mrs) in
  m / 2 ^ n <= m' <= m / 2 ^ n + 1 ∧ m' * 2 ^ n <= m + 2 ^ n / 2.
Proof.
  intros Hm Hn Hmrs Hr m'.
  pose proof (round_nearest_even_bounds mrs) as [Hlo Hhi]. fold m' in Hlo, Hhi.
  assert (H2n : 0 < 2 ^ n) by (apply Z.pow_pos_nonneg; lia).
  assert (Hq : 0 <= m / 2 ^ n) by (apply Z.div_pos; lia).
  assert (Hdown : m / 2 ^ n * 2 ^ n <= m).
  { rewrite Z.mul_comm. apply Z.mul_div_le. lia. }
  assert (0 <= 2 ^ n / 2) by (apply Z.div_pos; lia).
  split; [rewrite <- Hmrs; destruct (shr_r mrs); lia|].
  destruct (shr_r mrs) eqn:Hbit; [|nia].
  destruct Hr as [Hpos Hodd]; [done|].
  set (q := m / 2 ^ (n - 1)) in *.
  assert (H2n1 : 0 < 2 ^ (n - 1)) by (apply Z.pow_pos_nonneg; lia).
  assert (Hpow : 2 ^ n = 2 * 2 ^ (n - 1)).
  { rewrite <- Z.pow_succ_r by lia. f_equal. lia. }
  assert (Hhalf : 2 ^ n / 2 = 2 ^ (n - 1)).
  { rewrite Hpow, Z.mul_comm, Z.div_mul by lia. done. }
  assert (Hqm : q * 2 ^ (n - 1) <= m).
  { unfold q. rewrite Z.mul_comm. apply Z.mul_div_le. lia. }
  assert (Hq2 : m / 2 ^ n = q / 2).
  { unfold q. rewrite Z.div_div by lia. f_equal. lia. }
  assert (Hqodd : q = 2 * (q / 2) + 1).
  { rewrite (Z.div_mod q 2) at 1 by lia. rewrite Zmod_odd, Hodd. done. }
  rewrite Hhalf. rewrite Hmrs, Hq2 in Hhi. nia.
Qed.

(** [binary_round_aux] on an exact positive mantissa: one rounding shift,
    one renormalising shift, then the classification of the result. *)
Lemma binary_round_aux_exact (sx : bool) (mx : positive) (ex : Z) :
  ∃ m2 : Z,
    let n1 := shift_count (Z.pos mx) ex in
    let n2 := shift_count m2 (ex + n1) in
    Z.pos mx / 2 ^ n1 <= m2 <= Z.pos mx / 2 ^ n1 + 1
    ∧ m2 * 2 ^ n1 <= Z.pos mx + 2 ^ n1 / 2
    ∧ binary_round_aux prec emax sx (Z.pos mx) ex loc_Exact
      = match m2 / 2 ^ n2 with
        | Z0 => S754_zero sx
        | Z.pos m =>
            if ex + n1 + n2 <=? emax - prec
            then S754_finite sx m (ex + n1 + n2) else S754_infinity sx
        | Z.neg _ => S754_nan
        end.
Proof.
  unfold binary_round_aux.
  destruct (shr_fexp_exact (Z.pos mx) ex) as (mrs1 & -> & Hm1 & Hr1); [lia|].
  set (n1 := shift_count (Z.pos mx) ex) in *.
  assert (Hn1 : 0 <= n1) by (unfold n1, shift_count; lia).
  destruct (round_shifted_bounds (Z.pos mx) n1 mrs1) as [Hm2 Hle]; [lia|done|done|done|].
  set (m2 := round_nearest_even (shr_m mrs1) (loc_of_shr_record mrs1)) in *.
  exists m2. cbn zeta.
  assert (0 <= Z.pos mx / 2 ^ n1) by (apply Z.div_pos; [lia|apply Z.pow_pos_nonneg; lia]).
  destruct (shr_fexp_exact m2 (ex + n1)) as (mrs2 & -> & Hm3 & _); [lia|].
  rewrite Hm3. done.
Qed.

Lemma number_of_Z_1 : number_of_Z 1 = S754_finite false 4503599627370496 (-52).
Proof. vm_compute. reflexivity. Qed.

Lemma eleven_eq : eleven = S754_finite false 6192449487634432 (-49).
Proof. vm_compute. reflexivity. Qed.

Lemma emin_eq : SpecFloat.emin prec emax = -1074.
Proof. reflexivity. Qed.

Lemma pow2_52 : 2 ^ 52 = 4503599627370496.
Proof. vm_compute. reflexivity. Qed.

Lemma pow2_53_half : 2 ^ 52 = 2 ^ 53 / 2.
Proof. vm_compute. reflexivity. Qed.

Lemma SFltb_finite (m q : positive) (e f : Z) :
  SFltb (S754_finite false m e) (S754_finite false q f) = true →
  e < f ∨ e = f ∧ Z.pos m < Z.pos q.
Proof.
  unfold SFltb, SFcompare. rewrite Pos.compare_cont_spec. unfold Pos.switch_Eq.
  destruct (Z.compare_spec e f) as [He|He|He]; [|by left|discriminate].
  destruct (Pos.compare_spec m q) as [?|Hlt|?]; [discriminate| |discriminate].
  intros _. right. split; [exact He|]. exact (Pos2Z.pos_lt_pos _ _ Hlt).
Qed.

Lemma bounded_finite (m : positive) (e : Z) :
  bounded prec emax m e = true → Z.pos m < 2 ^ 53 ∧ -1074 <= e.
Proof.
  unfold bounded, canonical_mantissa, fexp. rewrite emin_eq. unfold prec, emax.
  rewrite andb_true_iff, Z.eqb_eq, Z.leb_le. intros [Hcan _].
  split; [|lia].
  eapply Z.lt_le_trans; [apply digits2_pos_gt|]. apply Z.pow_le_mono_r; lia.
Qed.

Lemma is_Math_random_finite (m : positive) (e : Z) :
  is_Math_random (S754_finite false m e) = true →
  Z.pos m < 2 ^ 53 ∧ -1074 <= e <= -52 ∧ Z.pos m < 2 ^ (- e).
Proof.
  unfold is_Math_random. rewrite number_of_Z_1, andb_true_iff.
  intros [[Hm He]%bounded_finite Hlt%SFltb_finite].
  split; [exact Hm|]. destruct Hlt as [Hlt|[-> Hlt]].
  - split; [lia|]. eapply Z.lt_le_trans; [exact Hm|]. apply Z.pow_le_mono_r; lia.
  - split; [lia|]. change (- (-52)) with 52. rewrite pow2_52. exact Hlt.
Qed.

Lemma shift_count_bounds (m e b : Z) :
  0 <= b → Zdigits2 m <= b + 53 → -1074 - b <= e →
  0 <= shift_count m e <= b
  ∧ Zdigits2 m - 53 <= shift_count m e ∧ -1074 <= e + shift_count m e.
Proof.
  unfold shift_count, fexp. rewrite emin_eq. unfold prec. lia.
Qed.

Lemma Zdigits2_le (m k : Z) : 0 <= m < 2 ^ k → 0 <= k → Zdigits2 m <= k.
Proof.
  intros [Hm Hk] ?. destruct m as [|p|p]; [done| |lia].
  by apply digits2_pos_le.
Qed.

(** [a / 2^n <= b] becomes [a <= b * 2^n] and back: the two facts about
    floor division by a power of two the bounds below are made of. *)
Lemma div_pow2_lower (a k i j : Z) :
  0 <= j <= i → k * 2 ^ i <= a → k * 2 ^ (i - j) <= a / 2 ^ j.
Proof.
  intros Hij Hk. apply Z.div_le_lower_bound; [apply Z.pow_pos_nonneg; lia|].
  rewrite Z.mul_comm, <- Z.mul_assoc, <- Z.pow_add_r by lia.
  by replace (i - j + j) with i by lia.
Qed.

(** Line 74, exactly: for the drawn number [m * 2^e] the product with
    eleven is a zero or a positive finite number, and its floor lies between
    the floor of [11 * m * 2^e] and the floor of [(11 * m + 8) * 2^e]. *)
Lemma floor_product_cell (m : positive) (e : Z) :
  is_Math_random (S754_finite false m e) = true →
  (match SFmul prec emax (S754_finite false m e) eleven with
   | S754_zero false | S754_finite false _ _ => True
   | _ => False
   end)
  ∧ 11 * Z.pos m / 2 ^ (- e)
    <= Math_floor (SFmul prec emax (S754_finite false m e) eleven)
    <= (11 * Z.pos m + 8) / 2 ^ (- e).
Proof.
  rewrite eleven_eq. intros (Hm & He & Hme)%is_Math_random_finite.
  cbn [SFmul xorb].
  destruct (binary_round_aux_exact false (m * 6192449487634432) (e + -49))
    as (m2 & Hm2 & Hle & ->).
  set (mx := Z.pos (m * 6192449487634432)) in *.
  set (ex := e + -49) in *.
  set (n1 := shift_count mx ex) in *.
  set (n2 := shift_count m2 (ex + n1)) in *.
  set (k := 11 * Z.pos m / 2 ^ (- e)).
  assert (H2e : 0 < 2 ^ (- e)) by (apply Z.pow_pos_nonneg; lia).
  assert (Hk : 0 <= k ∧ k * 2 ^ (- e) <= 11 * Z.pos m).
  { split; [apply Z.div_pos; lia|]. rewrite Z.mul_comm. apply Z.mul_div_le. lia. }
  assert (Hmx : mx = 2 ^ 49 * (11 * Z.pos m)) by (unfold mx; lia).
  assert (Hdig : mx < 2 ^ Zdigits2 mx) by apply digits2_pos_gt.
  destruct (shift_count_bounds mx ex 53) as (Hn1 & Hn1d & Hn1e);
    [lia|apply Zdigits2_le; lia|lia|]. fold n1 in Hn1, Hn1d, Hn1e.
  assert (H2n1 : 0 < 2 ^ n1) by (apply Z.pow_pos_nonneg; lia).
  assert (Hhalf : 2 ^ n1 / 2 <= 2 ^ 52).
  { transitivity (2 ^ 53 / 2); [|by rewrite <- pow2_53_half].
    apply Z.div_le_mono; [lia|]. apply Z.pow_le_mono_r; lia. }
  assert (Hq1 : mx / 2 ^ n1 < 2 ^ 53).
  { apply Z.div_lt_upper_bound; [done|]. rewrite <- Z.pow_add_r by lia.
    eapply Z.lt_le_trans; [exact Hdig|]. apply Z.pow_le_mono_r; lia. }
  assert (Hq1' : 0 <= mx / 2 ^ n1) by (apply Z.div_pos; lia).
  destruct (shift_count_bounds m2 (ex + n1) 1) as (Hn2 & _ & _);
    [lia|apply Zdigits2_le; lia|lia|]. fold n2 in Hn2.
  assert (H2n2 : 0 < 2 ^ n2) by (apply Z.pow_pos_nonneg; lia).
  set (e3 := ex + n1 + n2) in *.
  assert (He3 : e3 < 0) by (unfold e3, ex; lia).
  assert (H2e3 : 0 < 2 ^ (- e3)) by (apply Z.pow_pos_nonneg; lia).
  (* from below: the integer [k] survives both shifts *)
  assert (Hlow : k * 2 ^ (- e3) <= m2 / 2 ^ n2).
  { replace (- e3) with (- (ex + n1) - n2) by (unfold e3; lia).
    apply div_pow2_lower; [lia|]. etrans; [|apply Hm2].
    replace (- (ex + n1)) with (49 - e - n1) by (unfold ex; lia).
    apply div_pow2_lower; [lia|]. rewrite Hmx.
    replace (49 - e) with (- e + 49) by lia. rewrite Z.pow_add_r by lia.
    clearbody mx ex n1 n2 e3 k. nia. }
  (* from above: rounding adds at most half a unit of the shifted mantissa *)
  assert (Hup : m2 / 2 ^ n2 * 2 ^ (n1 + n2) <= 2 ^ 49 * (11 * Z.pos m + 8)).
  { assert (m2 / 2 ^ n2 * 2 ^ n2 <= m2) by (rewrite Z.mul_comm; apply Z.mul_div_le; lia).
    assert (m2 / 2 ^ n2 * 2 ^ n2 * 2 ^ n1 <= m2 * 2 ^ n1)
      by (apply Z.mul_le_mono_nonneg_r; lia).
    rewrite Z.pow_add_r by lia. clearbody mx ex n1 n2 e3 k. lia. }
  assert (Hm3 : 0 <= m2 / 2 ^ n2) by (apply Z.div_pos; lia).
  assert (Htop : 0 <= (11 * Z.pos m + 8) / 2 ^ (- e)) by (apply Z.div_pos; lia).
  destruct (m2 / 2 ^ n2) as [|m3|m3] eqn:Hq; [|clear Hm3|lia].
  { split; [done|]. cbn [Math_floor]. clearbody mx ex n1 n2 e3. nia. }
  destruct (Z.leb_spec e3 (emax - prec)) as [_|Hbig]; [|unfold emax, prec in Hbig; lia].
  split; [done|]. cbn [Math_floor cond_Zopp].
  rewrite <- (Z.opp_involutive e3), Z.shiftl_opp_r, Z.shiftr_div_pow2 by lia.
  split.
  - apply Z.div_le_lower_bound; [done|]. by rewrite Z.mul_comm.
  - apply Z.div_le_lower_bound; [done|].
    assert (Hfl : Z.pos m3 / 2 ^ (- e3) * 2 ^ (- e3) <= Z.pos m3)
      by (rewrite Z.mul_comm; apply Z.mul_div_le; lia).
    assert (Hexp : 2 ^ (n1 + n2) * 2 ^ (- e3) = 2 ^ 49 * 2 ^ (- e)).
    { rewrite <- !Z.pow_add_r by lia. f_equal. unfold e3, ex. lia. }
    assert (0 <= Z.pos m3 / 2 ^ (- e3)) by (apply Z.div_pos; lia).
    assert (0 < 2 ^ (n1 + n2)) by (apply Z.pow_pos_nonneg; lia).
    apply (Z.mul_le_mono_pos_l _ _ (2 ^ 49)); [lia|].
    set (q := Z.pos m3 / 2 ^ (- e3)) in *.
    assert (q * 2 ^ (- e3) * 2 ^ (n1 + n2) <= Z.pos m3 * 2 ^ (n1 + n2))
      by (apply Z.mul_le_mono_nonneg_r; lia).
    clearbody mx ex n1 n2 e3 k q. nia.
Qed.

(** Line 74: the floor of the product is one of [0 .. 10]. *)
Lemma floor_product_range (r : spec_float) :
  is_Math_random r = true →
  (match SFmul prec emax r eleven with
   | S754_zero false | S754_finite false _ _ => True
   | _ => False
   end)
  ∧ 0 <= Math_floor (SFmul prec emax r eleven) <= 10.
Proof.
  destruct r as [[|]|[|]| |[|] m e]; try discriminate; intros Hr.
  { rewrite eleven_eq. cbn. lia. }
  destruct (floor_product_cell m e Hr) as [Hfin [Hlo Hhi]].
  apply is_Math_random_finite in Hr as (Hm & He & Hme).
  assert (H2e : 0 < 2 ^ (- e)) by (apply Z.pow_pos_nonneg; lia).
  split; [done|]. split.
  - etrans; [|exact Hlo]. apply Z.div_pos; lia.
  - etrans; [exact Hhi|]. apply Z.lt_succ_r, Z.div_lt_upper_bound; lia.
Qed.

(** The state stored at line 74 is the floor of eleven times the drawn
    number, up to the rounding of the product: at most eight units in the
    last place of the drawn number are added before the floor is taken. *)
Lemma drawn_state_cell (r : spec_float) :
  is_Math_random r = true →
  exact_floor 0 r <= drawn_state r <= exact_floor 8 r.
Proof.
  destruct r as [[|]|[|]| |[|] m e]; try discriminate; intros Hr.
  { unfold drawn_state. rewrite eleven_eq. cbn. lia. }
  destruct (floor_product_cell m e Hr) as [_ Hcell].
  apply is_Math_random_finite in Hr as (_ & He & _).
  unfold exact_floor, drawn_state.
  rewrite <- (Z.opp_involutive e) at 1 4.
  rewrite !Z.shiftl_opp_r, !Z.shiftr_div_pow2 by lia.
  by rewrite Z.add_0_r.
Qed.

(** ** Runs of the subject's methods *)

Lemma subscribe_run (observer : Observer) (s : Subject) :
  subscribe observer s
  = Some (tt,
          if bool_decide (observer ∈ observers s) then s
          else with_observers s (observers s ++ [observer]),
          [Console (if bool_decide (observer ∈ observers s)
                    then "Subject: Observer has been Subscribed already."
                    else "Subject: Subscribed an observer.")]).
Proof.
  case_bool_decide; [by apply subscribe_present|by apply subscribe_fresh].
Qed.

Lemma subscribe_observers (observer : Observer) (s : Subject) :
  ∃ out, subscribe observer s
         = Some (tt, with_observers s (subscribed (observers s) observer), out).
Proof.
  rewrite subscribe_run. unfold subscribed.
  case_bool_decide; eexists; [by rewrite with_observers_same|done].
Qed.

Lemma subscribe_all_observers (l : list Observer) (s : Subject) :
  ∃ out, subscribe_all l s
         = Some (tt, with_observers s (foldl subscribed (observers s) l), out).
Proof.
  revert s. induction l as [|o l IH]; intros s.
  - exists []. simpl. by rewrite with_observers_same.
  - destruct (subscribe_observers o s) as [out1 Hrun1].
    destruct (IH (with_observers s (subscribed (observers s) o))) as [out2 Hrun2].
    exists (out1 ++ out2). cbn [subscribe_all]. unfold_M.
    by rewrite Hrun1, Hrun2.
Qed.

Lemma subscribed_NoDup (l : list Observer) (observer : Observer) :
  NoDup l → NoDup (subscribed l observer).
Proof.
  intros Hnd. unfold subscribed. case_bool_decide as Hin; [done|].
  apply NoDup_app. split_and!; [done| |apply NoDup_singleton].
  intros x Hx ->%list_elem_of_singleton. done.
Qed.

Lemma elem_of_subscribed (l : list Observer) (observer x : Observer) :
  x ∈ subscribed l observer ↔ x ∈ l ∨ x = observer.
Proof.
  unfold subscribed. case_bool_decide as Hin.
  - split; [by left|]. intros [?| ->]; done.
  - by rewrite elem_of_app, list_elem_of_singleton.
Qed.

Lemma subscribed_prefix (l : list Observer) (observer : Observer) :
  l `prefix_of` subscribed l observer.
Proof.
  unfold subscribed. case_bool_decide; [done|]. by apply prefix_app_r.
Qed.

Lemma foldl_subscribed (calls l : list Observer) :
  NoDup l →
  NoDup (foldl subscribed l calls)
  ∧ l `prefix_of` foldl subscribed l calls
  ∧ ∀ x, x ∈ foldl subscribed l calls ↔ x ∈ l ∨ x ∈ calls.
Proof.
  revert l. induction calls as [|o calls IH]; intros l Hnd; simpl.
  - split_and!; [done..|]. intros x. rewrite elem_of_nil. tauto.
  - destruct (IH (subscribed l o)) as (Hnd' & Hpre & Hin); [by apply subscribed_NoDup|].
    split_and!; [done|by etrans; [apply subscribed_prefix|]|].
    intros x. rewrite Hin, elem_of_subscribed, elem_of_cons. tauto.
Qed.

Lemma unsubscribe_cases (observer : Observer) (s : Subject) :
  ((observer ∉ observers s)
   ∧ unsubscribe observer s = Some (tt, s, [Console "Subject: Nonexistent observer."]))
  ∨ (∃ l1 l2, observers s = l1 ++ observer :: l2 ∧ (observer ∉ l1)
       ∧ unsubscribe observer s
         = Some (tt, with_observers s (l1 ++ l2),
                 [Console "Subject: Unsubscribed an observer."])).
Proof.
  destruct (decide (observer ∈ observers s)) as [Hin|Hin].
  - right. apply list_elem_of_split_l in Hin as (l1 & l2 & Hl & Hl1).
    exists l1, l2. split_and!; [done..|]. by apply unsubscribe_first.
  - left. split; [done|]. by apply unsubscribe_absent.
Qed.

Lemma someBusinessLogic_run (random : spec_float) (budget : nat) (s : Subject) :
  (length (observers s) < budget)%nat →
  someBusinessLogic random budget s
  = Some (tt, with_state s (drawn_state random),
          [Console (String "010"%char "Subject: I'm doing something important.");
           Console ("Subject: My state has just changed to: "
                      +:+ pretty (drawn_state random));
           Console "Subject: Notifying observers..."]
          ++ concat (map (λ o, Call o (with_state s (drawn_state random))
                                 :: reaction o (with_state s (drawn_state random)))
                       (observers s))).
Proof.
  intros Hlen. unfold someBusinessLogic, someBusinessLogic_with. unfold_M.
  fold (drawn_state random). fold (with_state s (drawn_state random)).
  rewrite notify_run by done. reflexivity.
Qed.

(** Every subject a client can build is a [ConcreteSubject] whose subscriber
    list has no duplicate and whose state is one of [0 .. 10]. *)
Lemma reachable_invariant (s : Subject) :
  reachable s →
  class s = ConcreteSubject ∧ NoDup (observers s) ∧ 0 <= state s <= 10.
Proof.
  induction 1 as [|s s' budget op out _ (Hcls & Hnd & Hst) Hwf Hrun].
  - split_and!; [done|apply NoDup_nil_2|done..].
  - destruct op as [o|o| |random]; cbn [perform well_formed] in Hrun, Hwf.
    + destruct (subscribe_observers o s) as [out' Hrun']. rewrite Hrun' in Hrun.
      injection Hrun as <- _. split; [done|]. split; [|done].
      by apply subscribed_NoDup.
    + destruct (unsubscribe_cases o s) as [[_ Hrun']|(l1 & l2 & Hl & _ & Hrun')];
        rewrite Hrun' in Hrun; injection Hrun as <- _; [done|].
      split; [done|]. split; [|done]. cbn. rewrite Hl in Hnd.
      apply NoDup_app in Hnd as (Hnd1 & Hdisj & Hnd2).
      apply NoDup_app. split_and!; [done| |by eapply NoDup_cons_1_2].
      intros x Hx Hx2. apply (Hdisj x Hx). by right.
    + destruct (decide (length (observers s) < budget)%nat) as [Hlen|Hlen].
      * rewrite notify_run in Hrun by done. by injection Hrun as <- _.
      * rewrite notify_short in Hrun by lia. done.
    + destruct (decide (length (observers s) < budget)%nat) as [Hlen|Hlen].
      * rewrite someBusinessLogic_run in Hrun by done. injection Hrun as <- _.
        split; [done|]. split; [done|]. apply floor_product_range, Hwf.
      * unfold someBusinessLogic, someBusinessLogic_with in Hrun. unfold_M in Hrun.
        rewrite notify_short in Hrun by (cbn; lia). done.
Qed.

(** ** The script and the scenarios of the specification, run *)

Example client_code_console :
  console_of (client_code (draw_for 3) (draw_for 9) (draw_for 8) 3) new_ConcreteSubject
  = Some ["-- Create subject instance";
          "-- Create observer A";
          "Subject: Subscribed an observer.";
          "-- Create observer B";
          "Subject: Subscribed an observer.";
          "-- Do some logic";
          String "010"%char "Subject: I'm doing something important.";
          "Subject: My state has just changed to: 3";
          "Subject: Notifying observers...";
          "ConcreteObserverA: Reacted to the event. New value: 3";
          String "010"%char "Subject: I'm doing something important.";
          "Subject: My state has just changed to: 9";
          "Subject: Notifying observers...";
          "ConcreteObserverB: Reacted to the event. New value: 9";
          "-- Unsubscribe observer B";
          "Subject: Unsubscribed an observer.";
          String "010"%char "Subject: I'm doing something important.";
          "Subject: My state has just changed to: 8";
          "Subject: Notifying observers..."].
Proof. vm_compute. reflexivity. Qed.

Example scenario_subscribe_twice :
  (subscribe observer1;; subscribe observer1) new_ConcreteSubject
  = Some (tt, with_observers new_ConcreteSubject [observer1],
          [Console "Subject: Subscribed an observer.";
           Console "Subject: Observer has been Subscribed already."]).
Proof. reflexivity. Qed.

Example scenario_unsubscribed_is_silent :
  console_of (subscribe observer1;; subscribe observer2;; unsubscribe observer2;;
              set_state 9;; notify 2) new_ConcreteSubject
  = Some ["Subject: Subscribed an observer.";
          "Subject: Subscribed an observer.";
          "Subject: Unsubscribed an observer.";
          "Subject: Notifying observers..."].
Proof. vm_compute. reflexivity. Qed.

Example notify_needs_one_step_per_subscriber_and_one :
  notify 2 both_subscribed = None ∧ is_Some (notify 3 both_subscribed).
Proof. split; [reflexivity|]. vm_compute. by eexists. Qed.

(** ** The loop of [notify] over any observer objects *)

Lemma call_update_with_run (dispatch : Observer → M unit) (o : Observer)
    (s s' : Subject) (out : list event) :
  dispatch o s = Some (tt, s', out) →
  call_update_with dispatch o s = Some (tt, s', Call o s :: out)
  ∧ (mark_call o;; dispatch o) s = Some (tt, s', Call o s :: out).
Proof.
  intros Hrun. unfold call_update_with, mark_call. unfold_M. by rewrite Hrun.
Qed.

Section undisturbed_loop.
(** Observer objects whose [update] returns and leaves the subscriber list
    [l] as it is, and keeps a property [Inv] of the subject. *)
Variable dispatch : Observer → M unit.
Variable l : list Observer.
Variable Inv : Subject → Prop.
Hypothesis dispatch_keeps : ∀ o s1,
  o ∈ l → observers s1 = l → Inv s1 →
  ∃ s2 out, dispatch o s1 = Some (tt, s2, out) ∧ observers s2 = l ∧ Inv s2.

Lemma for_of_observers_in_turn (budget index : nat) (s : Subject) :
  observers s = l → Inv s → (length l - index < budget)%nat →
  ∃ s' out,
    for_of_observers (call_update_with dispatch) budget index s = Some (tt, s', out)
    ∧ updates_in_turn dispatch (drop index l) s = Some (tt, s', out)
    ∧ observers s' = l ∧ Inv s'.
Proof.
  revert index s. induction budget as [|budget IH]; intros index s Hl HI Hlen; [lia|].
  cbn [for_of_observers]. unfold_M. rewrite Hl.
  destruct (l !! index) as [o|] eqn:Hlook.
  - pose proof (lookup_lt_Some _ _ _ Hlook) as Hlt.
    destruct (dispatch_keeps o s) as (s1 & out1 & Hrun1 & Hl1 & HI1);
      [by eapply list_elem_of_lookup_2|done..|].
    destruct (call_update_with_run dispatch o s s1 out1 Hrun1) as [Hcall Hmark].
    destruct (IH (S index) s1) as (s2 & out2 & Hloop & Hturn & Hl2 & HI2); [done|done|lia|].
    rewrite Hcall, Hloop. eexists _, _. split; [done|].
    rewrite (drop_S _ _ _ Hlook). cbn [updates_in_turn].
    split; [|done].
    unfold mark_call in *. unfold_M. unfold mbind, M_bind in Hmark.
    unfold get_this, emit in Hmark. cbn in Hmark |- *.
    destruct (dispatch o s) as [[[[] s1'] out1']|]; [|done].
    injection Hrun1 as -> ->. by rewrite Hturn.
  - apply lookup_ge_None in Hlook. rewrite drop_ge by lia.
    by exists s, [].
Qed.
End undisturbed_loop.

(** When no [update] notifies in its turn, the calls recorded are the list. *)
Lemma updates_in_turn_invoked (dispatch : Observer → M unit) (l l' : list Observer)
    (s s' : Subject) (out : list event) :
  (∀ o s1, o ∈ l → observers s1 = l →
     ∃ s2 out, dispatch o s1 = Some (tt, s2, out) ∧ observers s2 = l ∧ invoked out = []) →
  (∀ o, o ∈ l' → o ∈ l) → observers s = l →
  updates_in_turn dispatch l' s = Some (tt, s', out) → invoked out = l'.
Proof.
  intros Hquiet. revert s out. induction l' as [|o l' IH]; intros s out Hsub Hl Hrun.
  - by injection Hrun as _ <-.
  - destruct (Hquiet o s) as (s1 & out1 & Hrun1 & Hl1 & Hinv1);
      [apply Hsub, elem_of_cons; by left|done|].
    destruct (call_update_with_run dispatch o s s1 out1 Hrun1) as [_ Hmark].
    cbn [updates_in_turn] in Hrun.
    change (mark_call o;; dispatch o;; updates_in_turn dispatch l')
      with (mark_call o ≫= λ _, dispatch o ≫= λ _, updates_in_turn dispatch l') in Hrun.
    unfold mark_call in Hrun. unfold_M in Hrun. rewrite Hrun1 in Hrun.
    destruct (updates_in_turn dispatch l' s1) as [[[[] s2] out2]|] eqn:Hrest; [|done].
    injection Hrun as <- <-. cbn.
    change (invoked (Call o s :: out1 ++ out2)) with (o :: invoked (out1 ++ out2)).
    rewrite invoked_app, Hinv1. cbn. f_equal.
    apply (IH s1 out2); [|done|done]. intros x Hx. apply Hsub, elem_of_cons. by right.
Qed.

(** ** The upper half of the draws *)

Lemma upper_half_is_Math_random (z : Z) :
  2 ^ 52 <= z < 2 ^ 53 → is_Math_random (upper_half z) = true.
Proof.
  intros [Hlo Hhi]. unfold upper_half, is_Math_random.
  assert (Hz : Z.pos (Z.to_pos z) = z) by (rewrite pow2_52 in Hlo; lia).
  assert (Hd : Z.pos (digits2_pos (Z.to_pos z)) = 53).
  { apply Z.le_antisymm; [apply digits2_pos_le; lia|].
    destruct (Z.le_gt_cases 53 (Z.pos (digits2_pos (Z.to_pos z)))) as [|Hd]; [done|exfalso].
    pose proof (digits2_pos_gt (Z.to_pos z)) as Hgt. rewrite Hz in Hgt.
    assert (2 ^ Z.pos (digits2_pos (Z.to_pos z)) <= 2 ^ 52) by (apply Z.pow_le_mono_r; lia).
    lia. }
  apply andb_true_iff. split.
  - unfold bounded, canonical_mantissa, fexp. rewrite emin_eq, Hd. reflexivity.
  - rewrite number_of_Z_1. unfold SFltb, SFcompare. reflexivity.
Qed.

Lemma upper_half_monotone (z1 z2 : Z) :
  2 ^ 52 <= z1 → z1 <= z2 → z2 < 2 ^ 53 →
  drawn_state (upper_half z1) <= drawn_state (upper_half z2).
Proof.
  intros Hlo Hle Hhi. destruct (Z.eq_dec z1 z2) as [->|Hne]; [done|].
  pose proof (drawn_state_cell _ (upper_half_is_Math_random z1 ltac:(lia))) as [_ H1].
  pose proof (drawn_state_cell _ (upper_half_is_Math_random z2 ltac:(lia))) as [H2 _].
  etrans; [exact H1|]. etrans; [|exact H2]. unfold exact_floor, upper_half.
  rewrite pow2_52 in Hlo. rewrite !Z2Pos.id by lia.
  change (-53) with (- (53)). rewrite !Z.shiftl_opp_r, !Z.shiftr_div_pow2 by lia.
  apply Z.div_le_mono; lia.
Qed.

(** The draws of the upper half that give state [k], from the states at
    four of them. *)
Lemma upper_half_cell (k a b z : Z) :
  2 ^ 52 < a → a < b → b < 2 ^ 53 →
  drawn_state (upper_half (a - 1)) < k → drawn_state (upper_half a) = k →
  drawn_state (upper_half (b - 1)) = k → k < drawn_state (upper_half b) →
  2 ^ 52 <= z < 2 ^ 53 →
  drawn_state (upper_half z) = k ↔ a <= z < b.
Proof.
  intros Ha Hab Hb Hbelow Hfirst Hlast Habove Hz. split.
  - intros Hk. split.
    + destruct (Z.le_gt_cases a z) as [|Hlt]; [done|exfalso].
      pose proof (upper_half_monotone z (a - 1)). lia.
    + destruct (Z.le_gt_cases b z) as [Hge|]; [exfalso|done].
      pose proof (upper_half_monotone b z). lia.
  - intros [Hlo Hhi].
    pose proof (upper_half_monotone a z). pose proof (upper_half_monotone z (b - 1)). lia.
Qed.

(** A draw below [0.5] gives a state of at most 5. *)
Lemma lower_half_states (r : spec_float) :
  is_Math_random r = true → SFltb r (upper_half (2 ^ 52)) = true →
  drawn_state r <= 5.
Proof.
  intros Hr Hlt. pose proof (drawn_state_cell r Hr) as [_ Hhi].
  etrans; [exact Hhi|]. clear Hhi. revert Hr Hlt.
  destruct r as [[|]|[|]| |[|] m e]; intros Hr Hlt; try discriminate Hr; [done|].
  apply SFltb_finite in Hlt. rewrite Z2Pos.id in Hlt by (by vm_compute).
  apply is_Math_random_finite in Hr as (Hm & He & _).
  assert (Hhalf : 2 * Z.pos m < 2 ^ (- e)).
  { destruct Hlt as [Hlt|[-> Hlt]].
    - assert (2 ^ 54 <= 2 ^ (- e)) by (apply Z.pow_le_mono_r; lia).
      replace 54 with (53 + 1) in * by done. rewrite Z.pow_add_r in * by lia. lia.
    - change (- (-53)) with (52 + 1). rewrite Z.pow_add_r by lia. lia. }
  unfold exact_floor. rewrite <- (Z.opp_involutive e).
  rewrite Z.shiftl_opp_r, Z.shiftr_div_pow2 by lia.
  apply Z.lt_succ_r, Z.div_lt_upper_bound; [apply Z.pow_pos_nonneg; lia|].
  assert (2 ^ 52 <= 2 ^ (- e)) by (apply Z.pow_le_mono_r; lia).
  rewrite pow2_52 in *. lia.
Qed.

(** ** Properties stated by the specification *)

(** C1, as amended.  When the [update] methods of the subscribed observers
    return, leave the subscriber list as it is and do not notify in their
    turn (those of the two classes of the script do), [notify()] is its
    opening line followed by [update(this)] on each entry of the subscriber
    list, in subscription order: it returns, the calls made are exactly the
    list, and on a duplicate-free list every subscribed observer receives
    one call and an observer that is not subscribed receives none. *)
Theorem notify_invokes_each_subscriber_once
    (dispatch : Observer → M unit) (s : Subject) (budget : nat) :
  (length (observers s) < budget)%nat →
  (∀ o s1, o ∈ observers s → observers s1 = observers s →
     ∃ s2 out, dispatch o s1 = Some (tt, s2, out)
       ∧ observers s2 = observers s ∧ invoked out = []) →
  ∃ s' out, notify_with dispatch budget s = Some (tt, s', out)
    ∧ (console_log "Subject: Notifying observers...";;
       updates_in_turn dispatch (observers s)) s = Some (tt, s', out)
    ∧ observers s' = observers s
    ∧ invoked out = observers s
    ∧ (NoDup (observers s) →
       ∀ o, length (filter (λ x, x = o) (invoked out))
            = if bool_decide (o ∈ observers s) then 1%nat else 0%nat).
Proof.
  intros Hlen Hquiet.
  destruct (for_of_observers_in_turn dispatch (observers s) (λ _, True)) with
    (budget := budget) (index := 0%nat) (s := s)
    as (s' & out & Hloop & Hturn & Hl & _); [|done|done|lia|].
  { intros o s1 Ho Hs1 _. destruct (Hquiet o s1 Ho Hs1) as (s2 & out2 & ? & ? & _).
    by exists s2, out2. }
  rewrite drop_0 in Hturn.
  assert (Hinv : invoked out = observers s).
  { by apply (updates_in_turn_invoked dispatch (observers s) (observers s) s s'). }
  exists s', (Console "Subject: Notifying observers..." :: out).
  split_and!.
  - unfold notify_with. unfold_M. by rewrite Hloop.
  - unfold_M. by rewrite Hturn.
  - done.
  - done.
  - intros Hnd o. change (invoked (Console ?x :: out)) with (invoked out).
    rewrite Hinv. by apply count_NoDup.
Qed.

Lemma notify_invokes_each_subscriber_once_witness :
  ∃ s' out, notify 3 both_subscribed = Some (tt, s', out)
    ∧ (console_log "Subject: Notifying observers...";;
       updates_in_turn update [observer1; observer2]) both_subscribed
      = Some (tt, s', out)
    ∧ invoked out = [observer1; observer2]
    ∧ (∀ o, length (filter (λ x, x = o) (invoked out))
            = if bool_decide (o ∈ [observer1; observer2]) then 1%nat else 0%nat).
Proof.
  destruct (notify_invokes_each_subscriber_once update both_subscribed 3)
    as (s' & out & Hrun & Hturn & _ & Hinv & Honce).
  - simpl. lia.
  - intros o s1 _ Hs1. exists s1, (reaction o s1).
    split; [apply update_frame|]. split; [exact Hs1|apply invoked_reaction].
  - exists s', out. split; [exact Hrun|]. split; [exact Hturn|]. split; [exact Hinv|].
    apply Honce. apply (bool_decide_unpack _). vm_compute. exact I.
Defined.

(** C1 as stated fails: an observer whose [update] unsubscribes its
    receiver is called first; the loop then finds [observer2] at the next
    index, and [observer1], subscribed when [notify()] was called and due to
    react to state 3, is never called. *)
Lemma notify_skips_after_self_removal :
  observer1 ∈ observers with_leaver
  ∧ ∃ s' out, notify_with leaving_dispatch 4 with_leaver = Some (tt, s', out)
      ∧ invoked out = [leaver; observer2]
      ∧ (observer1 ∉ invoked out)
      ∧ console_lines out
        = ["Subject: Notifying observers..."; "Subject: Unsubscribed an observer."].
Proof.
  split; [apply (bool_decide_unpack _); vm_compute; exact I|].
  eexists _, _. split; [vm_compute; reflexivity|].
  split; [reflexivity|]. split; [|reflexivity].
  apply (bool_decide_unpack _). vm_compute. exact I.
Qed.

(** C2. On a [ConcreteSubject] with integer state [st], observer A writes
    its reaction line exactly when [st < 7] and observer B exactly when
    [st >= 7]; exactly one of the two reacts, and on [0 .. 10] A takes
    [0 .. 6] and B takes [7 .. 10]. *)
Theorem observers_split_at_seven (st : Z) (obs : list Observer) (i j : nat) :
  let subject := mkSubject ConcreteSubject st obs in
  let a := mkObserver i ConcreteObserverA in
  let b := mkObserver j ConcreteObserverB in
  reaction a subject
  = (if st <? 7
     then [Console ("ConcreteObserverA: Reacted to the event. New value: " +:+ pretty st)]
     else [])
  ∧ reaction b subject
    = (if st >=? 7
       then [Console ("ConcreteObserverB: Reacted to the event. New value: " +:+ pretty st)]
       else [])
  ∧ reacts a subject = bool_decide (st < 7)
  ∧ reacts b subject = bool_decide (st >= 7)
  ∧ xorb (reacts a subject) (reacts b subject) = true
  ∧ filter (λ v, reacts a (mkSubject ConcreteSubject v obs) = true) (seqZ 0 11)
    = seqZ 0 7
  ∧ filter (λ v, reacts b (mkSubject ConcreteSubject v obs) = true) (seqZ 0 11)
    = seqZ 7 4.
Proof.
  intros subject a b.
  assert (Ha : reaction a subject
    = (if st <? 7
       then [Console ("ConcreteObserverA: Reacted to the event. New value: " +:+ pretty st)]
       else [])).
  { unfold reaction, update, ConcreteObserverA_update. unfold_M. cbn.
    by destruct (st <? 7). }
  assert (Hb : reaction b subject
    = (if st >=? 7
       then [Console ("ConcreteObserverB: Reacted to the event. New value: " +:+ pretty st)]
       else [])).
  { unfold reaction, update, ConcreteObserverB_update. unfold_M. cbn.
    by destruct (st >=? 7). }
  assert (Hra : reacts a subject = bool_decide (st < 7)).
  { unfold reacts. rewrite Ha. destruct (Z.ltb_spec st 7).
    - by rewrite !bool_decide_eq_true_2.
    - rewrite !bool_decide_eq_false_2; [done|lia|]. by intros []. }
  assert (Hrb : reacts b subject = bool_decide (st >= 7)).
  { unfold reacts. rewrite Hb, Z.geb_leb. destruct (Z.leb_spec 7 st).
    - rewrite !bool_decide_eq_true_2; [done|lia|done].
    - rewrite !bool_decide_eq_false_2; [done|lia|]. by intros []. }
  split_and!; [done..| | |].
  - rewrite Hra, Hrb. do 2 case_bool_decide; (done || lia).
  - reflexivity.
  - reflexivity.
Qed.

(** C3. Starting from a duplicate-free subscriber list, any sequence of
    [subscribe] calls returns and leaves a duplicate-free list that extends
    the old one at the end and holds exactly the old entries and the
    observers passed.  A single call with a present observer leaves the
    subject as it was and writes the diagnostic; with a new observer it
    appends the observer. *)
Theorem subscribe_keeps_observers_distinct (s : Subject) (calls : list Observer) :
  NoDup (observers s) →
  ∃ s' out, subscribe_all calls s = Some (tt, s', out)
    ∧ NoDup (observers s')
    ∧ observers s `prefix_of` observers s'
    ∧ (∀ o, o ∈ observers s' ↔ o ∈ observers s ∨ o ∈ calls)
    ∧ (∀ o, subscribe o s
            = Some (tt,
                    if bool_decide (o ∈ observers s) then s
                    else with_observers s (observers s ++ [o]),
                    [Console (if bool_decide (o ∈ observers s)
                              then "Subject: Observer has been Subscribed already."
                              else "Subject: Subscribed an observer.")])).
Proof.
  intros Hnd. destruct (subscribe_all_observers calls s) as [out Hrun].
  destruct (foldl_subscribed calls (observers s) Hnd) as (Hnd' & Hpre & Hin).
  eexists _, out. split; [exact Hrun|]. cbn [observers with_observers].
  split_and!; [done..|]. intros o. apply subscribe_run.
Qed.

Lemma subscribe_keeps_observers_distinct_witness :
  ∃ s' out,
    subscribe_all [observer2; observer1; observer2; observer1] new_ConcreteSubject
    = Some (tt, s', out)
    ∧ NoDup (observers s')
    ∧ observers new_ConcreteSubject `prefix_of` observers s'
    ∧ (∀ o, o ∈ observers s'
            ↔ o ∈ observers new_ConcreteSubject
              ∨ o ∈ [observer2; observer1; observer2; observer1])
    ∧ (∀ o, subscribe o new_ConcreteSubject
            = Some (tt,
                    if bool_decide (o ∈ observers new_ConcreteSubject)
                    then new_ConcreteSubject
                    else with_observers new_ConcreteSubject
                           (observers new_ConcreteSubject ++ [o]),
                    [Console (if bool_decide (o ∈ observers new_ConcreteSubject)
                              then "Subject: Observer has been Subscribed already."
                              else "Subject: Subscribed an observer.")])).
Proof.
  apply (subscribe_keeps_observers_distinct new_ConcreteSubject
           [observer2; observer1; observer2; observer1]).
  apply (bool_decide_unpack _). vm_compute. exact I.
Defined.

(** C4. [unsubscribe] of an observer that is not subscribed returns with the
    subject as it was, having written only the diagnostic. *)
Theorem unsubscribe_unknown_observer (s : Subject) (observer : Observer) :
  observer ∉ observers s →
  unsubscribe observer s = Some (tt, s, [Console "Subject: Nonexistent observer."]).
Proof. apply unsubscribe_absent. Qed.

Lemma unsubscribe_unknown_observer_witness :
  unsubscribe observer2 new_ConcreteSubject
  = Some (tt, new_ConcreteSubject, [Console "Subject: Nonexistent observer."]).
Proof.
  apply (unsubscribe_unknown_observer new_ConcreteSubject observer2).
  apply (bool_decide_unpack _). vm_compute. exact I.
Defined.

(** C5. [unsubscribe] of a subscribed observer removes its first occurrence:
    the entries before it and the entries after it stay, in their order. *)
Theorem unsubscribe_removes_first_occurrence (s : Subject) (observer : Observer) :
  observer ∈ observers s →
  ∃ l1 l2, observers s = l1 ++ observer :: l2 ∧ (observer ∉ l1)
    ∧ unsubscribe observer s
      = Some (tt, with_observers s (l1 ++ l2),
              [Console "Subject: Unsubscribed an observer."]).
Proof.
  intros Hin. destruct (unsubscribe_cases observer s) as [[Hout _]|Hrun]; done.
Qed.

Lemma unsubscribe_removes_first_occurrence_witness :
  ∃ l1 l2, observers subscribed_twice = l1 ++ observer2 :: l2 ∧ (observer2 ∉ l1)
    ∧ unsubscribe observer2 subscribed_twice
      = Some (tt, with_observers subscribed_twice (l1 ++ l2),
              [Console "Subject: Unsubscribed an observer."]).
Proof.
  apply (unsubscribe_removes_first_occurrence subscribed_twice observer2).
  apply (bool_decide_unpack _). vm_compute. exact I.
Defined.

(** C6, as amended.  For every number [Math.random()] can return,
    [someBusinessLogic()]
    stores an integer of [0 .. 10] in [state], announces it, and then runs
    [notify()] on the updated subject.  The stored integer is the floor of
    eleven times the drawn number, up to the rounding of the product (at
    most eight units in the last place of the drawn number), so the draws
    giving one value fill an interval of width one eleventh; each of the
    eleven values is the outcome of some draw. *)
Theorem someBusinessLogic_draws_then_notifies
    (random : spec_float) (budget : nat) (s : Subject) :
  is_Math_random random = true → (length (observers s) < budget)%nat →
  ∃ v out,
    0 <= v <= 10
    ∧ exact_floor 0 random <= v <= exact_floor 8 random
    ∧ notify budget (with_state s v) = Some (tt, with_state s v, out)
    ∧ someBusinessLogic random budget s
      = Some (tt, with_state s v,
              [Console (String "010"%char "Subject: I'm doing something important.");
               Console ("Subject: My state has just changed to: " +:+ pretty v)]
              ++ out)
    ∧ forallb is_Math_random (map draw_for (seqZ 0 11)) = true
    ∧ map (λ k, drawn_state (draw_for k)) (seqZ 0 11) = seqZ 0 11.
Proof.
  intros Hr Hlen. exists (drawn_state random). eexists.
  split; [by apply floor_product_range|].
  split; [by apply drawn_state_cell|].
  split; [by apply notify_run|].
  split; [by apply someBusinessLogic_run|].
  split; vm_compute; reflexivity.
Qed.

Lemma someBusinessLogic_draws_then_notifies_witness :
  ∃ v out,
    0 <= v <= 10
    ∧ exact_floor 0 one_half <= v <= exact_floor 8 one_half
    ∧ notify 3 (with_state both_subscribed v) = Some (tt, with_state both_subscribed v, out)
    ∧ someBusinessLogic one_half 3 both_subscribed
      = Some (tt, with_state both_subscribed v,
              [Console (String "010"%char "Subject: I'm doing something important.");
               Console ("Subject: My state has just changed to: " +:+ pretty v)]
              ++ out)
    ∧ forallb is_Math_random (map draw_for (seqZ 0 11)) = true
    ∧ map (λ k, drawn_state (draw_for k)) (seqZ 0 11) = seqZ 0 11.
Proof.
  apply (someBusinessLogic_draws_then_notifies one_half 3 both_subscribed).
  - vm_compute. reflexivity.
  - simpl. lia.
Defined.

(** C6 as stated fails: the eleven states are not equally likely.  Take a
    draw that is uniform over the binary64 numbers [z * 2^-53] (as a
    generator of 53 random bits is).  All draws that give state 7 or state 8
    lie in the upper half, where these numbers are [2^52 <= z < 2^53]; there
    818836295885545 of them give state 7 and 818836295885544 give state 8. *)
Lemma states_not_equally_likely :
  (∀ z, 2 ^ 52 <= z < 2 ^ 53 →
     is_Math_random (upper_half z) = true
     ∧ (drawn_state (upper_half z) = 7 ↔ 5731854071198813 <= z < 6550690367084358)
     ∧ (drawn_state (upper_half z) = 8 ↔ 6550690367084358 <= z < 7369526662969902))
  ∧ (∀ r, is_Math_random r = true → SFltb r (upper_half (2 ^ 52)) = true →
          drawn_state r <= 5)
  ∧ 6550690367084358 - 5731854071198813 = 818836295885545
  ∧ 7369526662969902 - 6550690367084358 = 818836295885544.
Proof.
  split; [|split; [apply lower_half_states|split; reflexivity]].
  intros z Hz. split; [by apply upper_half_is_Math_random|]. split.
  - apply upper_half_cell; try done; vm_compute; done.
  - apply upper_half_cell; try done; vm_compute; done.
Qed.

(** C7. [update] of either observer class returns with the subject it was
    given unchanged, state and subscriber list alike.  The observer has
    nothing of its own to change: a second call on the same subject writes
    what the first wrote, and which object of a class receives the call
    makes no difference. *)
Theorem update_leaves_subject_unchanged (observer : Observer) (subject : Subject) :
  update observer subject = Some (tt, subject, reaction observer subject)
  ∧ (update observer;; update observer) subject
    = Some (tt, subject, reaction observer subject ++ reaction observer subject)
  ∧ update observer = update (mkObserver 0 (oclass observer)).
Proof.
  split_and!.
  - apply update_frame.
  - unfold_M. by rewrite !update_frame.
  - reflexivity.
Qed.

(** C8. Every public method of the subject returns: given one more loop
    step than there are subscribers, the run ends with a result.  A
    duplicate [subscribe] and an [unsubscribe] of an unknown observer end
    the same way, with the subject as it was and one diagnostic line. *)
Theorem operations_return_normally (op : operation) (budget : nat) (s : Subject) :
  well_formed op = true → (length (observers s) < budget)%nat →
  ∃ s' out, perform budget op s = Some (tt, s', out)
    ∧ match op with
      | Subscribe o =>
          if bool_decide (o ∈ observers s)
          then s' = s ∧ out = [Console "Subject: Observer has been Subscribed already."]
          else True
      | Unsubscribe o =>
          if bool_decide (o ∈ observers s)
          then True
          else s' = s ∧ out = [Console "Subject: Nonexistent observer."]
      | Notify | SomeBusinessLogic _ => True
      end.
Proof.
  intros Hwf Hlen. destruct op as [o|o| |random]; cbn [perform].
  - rewrite subscribe_run. eexists _, _. split; [done|]. by case_bool_decide.
  - destruct (unsubscribe_cases o s) as [[Hout ->]|(l1 & l2 & Hl & _ & ->)];
      eexists _, _; (split; [done|]).
    + by rewrite bool_decide_eq_false_2.
    + rewrite bool_decide_eq_true_2; [done|]. rewrite Hl, elem_of_app, elem_of_cons. tauto.
  - rewrite notify_run by done. by eexists _, _.
  - rewrite someBusinessLogic_run by done. by eexists _, _.
Qed.

Lemma operations_return_normally_witness :
  ∃ s' out, perform 3 (Subscribe observer1) both_subscribed = Some (tt, s', out)
    ∧ (if bool_decide (observer1 ∈ observers both_subscribed)
       then s' = both_subscribed
            ∧ out = [Console "Subject: Observer has been Subscribed already."]
       else True).
Proof.
  apply (operations_return_normally (Subscribe observer1) 3 both_subscribed).
  - reflexivity.
  - simpl. lia.
Defined.

(** C9. Given a subject that is not an instance of [ConcreteSubject],
    [update] of either observer class writes nothing and returns with the
    subject unchanged, whatever its state. *)
Theorem update_ignores_other_subjects (observer : Observer) (subject : Subject) :
  class subject ≠ ConcreteSubject →
  update observer subject = Some (tt, subject, []).
Proof.
  intros Hcls. unfold update.
  destruct (oclass observer);
    unfold ConcreteObserverA_update, ConcreteObserverB_update, instanceof; unfold_M;
    by rewrite bool_decide_eq_false_2 by done.
Qed.

Lemma update_ignores_other_subjects_witness :
  update observer1 foreign_subject = Some (tt, foreign_subject, []).
Proof.
  apply (update_ignores_other_subjects observer1 foreign_subject).
  apply (bool_decide_unpack _). vm_compute. exact I.
Defined.




(** ** Further properties of the code

    Helpers first: sequencing of runs, and the console lines of a
    notification. *)

Lemma seq_run (m k : M unit) (s s' s'' : Subject) (out out' : list event) :
  m s = Some (tt, s', out) → k s' = Some (tt, s'', out') →
  (m;; k) s = Some (tt, s'', out ++ out').
Proof. intros Hm Hk. unfold_M. by rewrite Hm, Hk. Qed.

Lemma seq_run_inv (m k : M unit) (s s' s'' : Subject) (out out2 : list event) :
  m s = Some (tt, s', out) → (m;; k) s = Some (tt, s'', out2) →
  ∃ out', k s' = Some (tt, s'', out') ∧ out2 = out ++ out'.
Proof.
  intros Hm. unfold_M. rewrite Hm.
  destruct (k s') as [[[[] s3] out3]|]; [|done]. intros [= <- <-]. by eexists.
Qed.

Lemma filter_ne_absent (l : list Observer) (o : Observer) :
  o ∉ l → filter (λ x, x ≠ o) l = l.
Proof.
  induction l as [|y l IH]; [done|]. intros [Hne Hl]%not_elem_of_cons.
  rewrite filter_cons_True by done. by rewrite IH.
Qed.

Lemma filter_ne_first (l1 l2 : list Observer) (o : Observer) :
  o ∉ l1 → o ∉ l2 → filter (λ x, x ≠ o) (l1 ++ o :: l2) = l1 ++ l2.
Proof.
  intros Hl1 Hl2. rewrite filter_app, filter_cons_False by (by intros []).
  by rewrite !filter_ne_absent.
Qed.

Lemma console_lines_app (out1 out2 : list event) :
  console_lines (out1 ++ out2) = console_lines out1 ++ console_lines out2.
Proof. apply omap_app. Qed.

Lemma reaction_console (o : Observer) (s : Subject) :
  console_lines (reaction o s)
  = if instanceof s ConcreteSubject && bool_decide (oclass o = reacting_class (state s))
    then [reaction_line (oclass o) (state s)] else [].
Proof.
  unfold reaction, update, reacting_class, reaction_line.
  destruct (oclass o);
    unfold ConcreteObserverA_update, ConcreteObserverB_update; unfold_M;
    destruct (instanceof s ConcreteSubject); cbn [andb]; try done;
    rewrite ?Z.geb_leb;
    destruct (Z.ltb_spec (state s) 7), (Z.leb_spec 7 (state s)); (done || lia).
Qed.

Lemma calls_console (s : Subject) (l : list Observer) :
  console_lines (concat (map (λ o, Call o s :: reaction o s) l))
  = if instanceof s ConcreteSubject
    then map (λ o, reaction_line (oclass o) (state s))
           (filter (λ o, oclass o = reacting_class (state s)) l)
    else [].
Proof.
  induction l as [|o l IH]; [by destruct (instanceof s ConcreteSubject)|].
  cbn [map concat]. rewrite console_lines_app, IH.
  change (console_lines (Call o s :: reaction o s)) with (console_lines (reaction o s)).
  rewrite reaction_console. destruct (instanceof s ConcreteSubject); [|done].
  cbn [andb]. rewrite filter_cons. case_bool_decide; by destruct (decide _).
Qed.

Lemma perform_step (op : operation) (budget : nat) (s : Subject) :
  well_formed op = true → (length (observers s) < budget)%nat →
  class s = ConcreteSubject → NoDup (observers s) → 0 <= state s <= 10 →
  ∃ s' out, perform budget op s = Some (tt, s', out)
    ∧ class s' = ConcreteSubject ∧ NoDup (observers s') ∧ 0 <= state s' <= 10
    ∧ (length (observers s') <= S (length (observers s)))%nat
    ∧ ∀ o, o ∈ observers s' → o ∈ observers s ∨ op = Subscribe o.
Proof.
  intros Hwf Hlen Hcls Hnd Hst. destruct op as [o|o| |random]; cbn [perform well_formed] in *.
  - destruct (subscribe_observers o s) as [out ->]. eexists _, _. split; [done|].
    cbn [class state observers with_observers].
    split_and!; [done|by apply subscribed_NoDup|lia|lia| |].
    + unfold subscribed. case_bool_decide; [lia|]. rewrite length_app. simpl. lia.
    + intros x [?| ->]%elem_of_subscribed; [by left|by right].
  - destruct (unsubscribe_cases o s) as [[_ ->]|(l1 & l2 & Hl & _ & ->)];
      eexists _, _; (split; [done|]).
    + split_and!; [done|done|lia|lia|lia|by left].
    + cbn [class state observers with_observers]. rewrite Hl in Hnd |- *.
      apply NoDup_app in Hnd as (Hnd1 & Hdisj & Hnd2).
      split_and!; [done| |lia|lia| |].
      * apply NoDup_app. split_and!; [done| |by eapply NoDup_cons_1_2].
        intros x Hx Hx2. apply (Hdisj x Hx). by right.
      * rewrite !length_app. simpl. lia.
      * intros x Hx. left. rewrite elem_of_app, elem_of_cons.
        apply elem_of_app in Hx. tauto.
  - rewrite notify_run by done. eexists _, _. split; [done|].
    split_and!; [done|done|lia|lia|lia|by left].
  - rewrite someBusinessLogic_run by done. eexists _, _. split; [done|].
    cbn [class state observers with_state].
    pose proof (floor_product_range random Hwf) as [_ Hrange].
    split_and!; [done|done|apply Hrange|apply Hrange|lia|by left].
Qed.

Lemma perform_all_from (ops : list operation) (budget : nat) (s : Subject) :
  forallb well_formed ops = true →
  (length (observers s) + length ops < budget)%nat →
  class s = ConcreteSubject → NoDup (observers s) → 0 <= state s <= 10 →
  ∃ s' out, perform_all budget ops s = Some (tt, s', out)
    ∧ class s' = ConcreteSubject ∧ NoDup (observers s') ∧ 0 <= state s' <= 10
    ∧ (length (observers s') <= length (observers s) + length ops)%nat
    ∧ ∀ o, o ∈ observers s' → o ∈ observers s ∨ Subscribe o ∈ ops.
Proof.
  revert s. induction ops as [|op ops IH]; intros s Hwf Hlen Hcls Hnd Hst.
  - exists s, []. split_and!; [done|done|done|lia|lia|simpl; lia|by left].
  - cbn [forallb] in Hwf. apply andb_true_iff in Hwf as [Hwf1 Hwf2].
    cbn [length] in Hlen.
    destruct (perform_step op budget s) as (s1 & out1 & Hrun1 & Hcls1 & Hnd1 & Hst1 & Hlen1 & Hin1);
      [done|lia|done..|].
    destruct (IH s1) as (s2 & out2 & Hrun2 & Hcls2 & Hnd2 & Hst2 & Hlen2 & Hin2);
      [done|lia|done..|].
    exists s2, (out1 ++ out2). split; [by apply (seq_run _ _ _ s1)|].
    split_and!; [done|done|lia|lia|cbn [length]; lia|].
    intros o [[?| ->]%Hin1|?]%Hin2; [by left|right; apply elem_of_cons; by left|].
    right. apply elem_of_cons. by right.
Qed.

(** X1. Whatever well-formed calls a client makes on a fresh subject with
    observers of the two classes of the script, with a loop budget above
    the number of calls, every call returns, and the subject it ends with is
    a [ConcreteSubject] whose subscriber list is duplicate-free and made of
    observers that were passed to [subscribe], and whose state is one of
    [0 .. 10]. *)
Theorem client_calls_keep_subject_well_formed (ops : list operation) (budget : nat) :
  forallb well_formed ops = true → (length ops < budget)%nat →
  ∃ s out, perform_all budget ops new_ConcreteSubject = Some (tt, s, out)
    ∧ class s = ConcreteSubject ∧ NoDup (observers s) ∧ 0 <= state s <= 10
    ∧ (length (observers s) <= length ops)%nat
    ∧ ∀ o, o ∈ observers s → Subscribe o ∈ ops.
Proof.
  intros Hwf Hlen.
  destruct (perform_all_from ops budget new_ConcreteSubject)
    as (s & out & Hrun & Hcls & Hnd & Hst & Hl & Hin);
    [done|simpl; lia|done|apply NoDup_nil_2|done|].
  exists s, out. split_and!; [done|done|done|lia|lia|done|].
  intros o [[]%elem_of_nil|?]%Hin. done.
Qed.

Lemma client_calls_keep_subject_well_formed_witness :
  ∃ s out,
    perform_all 6 [Subscribe observer1; Subscribe observer2; SomeBusinessLogic one_half;
                   Unsubscribe observer2; Notify] new_ConcreteSubject
    = Some (tt, s, out)
    ∧ class s = ConcreteSubject ∧ NoDup (observers s) ∧ 0 <= state s <= 10
    ∧ (length (observers s) <= 5)%nat
    ∧ ∀ o, o ∈ observers s
           → Subscribe o ∈ [Subscribe observer1; Subscribe observer2;
                            SomeBusinessLogic one_half; Unsubscribe observer2; Notify].
Proof.
  apply (client_calls_keep_subject_well_formed
           [Subscribe observer1; Subscribe observer2; SomeBusinessLogic one_half;
            Unsubscribe observer2; Notify] 6).
  - vm_compute. reflexivity.
  - simpl. lia.
Defined.

(** X2. Subscribing a new observer and unsubscribing it again gives the
    subject back exactly as it was. *)
Theorem subscribe_then_unsubscribe (s : Subject) (observer : Observer) :
  observer ∉ observers s →
  (subscribe observer;; unsubscribe observer) s
  = Some (tt, s, [Console "Subject: Subscribed an observer.";
                  Console "Subject: Unsubscribed an observer."]).
Proof.
  intros Hout.
  rewrite (seq_run _ _ s _ _ _ _ (subscribe_fresh observer s Hout)
             (unsubscribe_first observer
                (with_observers s (observers s ++ [observer])) (observers s) []
                eq_refl Hout)).
  cbn. rewrite app_nil_r. by destruct s.
Qed.

Lemma subscribe_then_unsubscribe_witness :
  (subscribe observer2;; unsubscribe observer2) new_ConcreteSubject
  = Some (tt, new_ConcreteSubject,
          [Console "Subject: Subscribed an observer.";
           Console "Subject: Unsubscribed an observer."]).
Proof.
  apply (subscribe_then_unsubscribe new_ConcreteSubject observer2).
  apply (bool_decide_unpack _). vm_compute. exact I.
Defined.

(** X3. Unsubscribing a subscribed observer and subscribing it again puts
    the observer last, behind every observer that was subscribed after it.
    The list is as it was exactly when the observer was the last subscriber
    already; otherwise its place in the notification order has changed. *)
Theorem unsubscribe_then_subscribe_moves_to_end (s : Subject) (observer : Observer) :
  NoDup (observers s) → observer ∈ observers s →
  ∃ l1 l2, observers s = l1 ++ observer :: l2
    ∧ (unsubscribe observer;; subscribe observer) s
      = Some (tt, with_observers s (l1 ++ l2 ++ [observer]),
              [Console "Subject: Unsubscribed an observer.";
               Console "Subject: Subscribed an observer."])
    ∧ (l1 ++ l2 ++ [observer] = observers s ↔ l2 = []).
Proof.
  intros Hnd Hin.
  destruct (unsubscribe_cases observer s) as [[Hout _]|(l1 & l2 & Hl & Hl1 & Hrun)]; [done|].
  exists l1, l2. split; [done|].
  assert (Hl2 : observer ∉ l2).
  { rewrite Hl in Hnd. by apply NoDup_app in Hnd as (_ & _ & [? _]%NoDup_cons). }
  assert (Hgone : observer ∉ observers (with_observers s (l1 ++ l2))).
  { cbn. rewrite elem_of_app. tauto. }
  split.
  - rewrite (seq_run _ _ s _ _ _ _ Hrun (subscribe_fresh observer _ Hgone)).
    cbn. by rewrite <- app_assoc.
  - rewrite Hl. split; [|by intros ->].
    intros Heq%app_inv_head. destruct l2 as [|x l2]; [done|exfalso].
    injection Heq as -> _. apply Hl2. apply elem_of_cons. by left.
Qed.

Lemma unsubscribe_then_subscribe_moves_to_end_witness :
  ∃ l1 l2, observers both_subscribed = l1 ++ observer1 :: l2
    ∧ (unsubscribe observer1;; subscribe observer1) both_subscribed
      = Some (tt, with_observers both_subscribed (l1 ++ l2 ++ [observer1]),
              [Console "Subject: Unsubscribed an observer.";
               Console "Subject: Subscribed an observer."])
    ∧ (l1 ++ l2 ++ [observer1] = observers both_subscribed ↔ l2 = []).
Proof.
  apply (unsubscribe_then_subscribe_moves_to_end both_subscribed observer1).
  - apply (bool_decide_unpack _). vm_compute. exact I.
  - apply (bool_decide_unpack _). vm_compute. exact I.
Defined.

(** X4. With observers of the two classes of the script on a duplicate-free
    list, [unsubscribe] followed by [notify] runs [update] on exactly the
    other subscribers, in their order: the output is the line of
    [unsubscribe], the opening line of [notify], then for each remaining
    subscriber its call and what its [update] writes.  The observer removed
    is not called. *)
Theorem unsubscribed_observer_is_not_notified
    (s : Subject) (observer : Observer) (budget : nat) :
  NoDup (observers s) → (length (observers s) < budget)%nat →
  ∃ s' out1 out,
    unsubscribe observer s = Some (tt, s', out1)
    ∧ observers s' = filter (λ x, x ≠ observer) (observers s)
    ∧ (unsubscribe observer;; notify budget) s = Some (tt, s', out)
    ∧ out = out1 ++ Console "Subject: Notifying observers..."
                  :: concat (map (λ o, Call o s' :: reaction o s') (observers s'))
    ∧ invoked out = filter (λ x, x ≠ observer) (observers s)
    ∧ (observer ∉ invoked out).
Proof.
  intros Hnd Hlen.
  assert (Hone : ∃ s' out1, unsubscribe observer s = Some (tt, s', out1)
            ∧ observers s' = filter (λ x, x ≠ observer) (observers s)
            ∧ invoked out1 = []).
  { destruct (unsubscribe_cases observer s) as [[Hout Hrun]|(l1 & l2 & Hl & Hl1 & Hrun)].
    - eexists _, _. split; [exact Hrun|]. by rewrite filter_ne_absent.
    - assert (Hl2 : observer ∉ l2).
      { rewrite Hl in Hnd. by apply NoDup_app in Hnd as (_ & _ & [? _]%NoDup_cons). }
      eexists _, _. split; [exact Hrun|]. cbn. by rewrite Hl, filter_ne_first. }
  destruct Hone as (s' & out1 & Hrun & Hl & Hinv1).
  assert (Hlen' : (length (observers s') < budget)%nat).
  { rewrite Hl. pose proof (length_filter (λ x, x ≠ observer) (observers s)). lia. }
  assert (Hinv : invoked (out1 ++ Console "Subject: Notifying observers..."
                    :: concat (map (λ o, Call o s' :: reaction o s') (observers s')))
                 = filter (λ x, x ≠ observer) (observers s)).
  { rewrite invoked_app, Hinv1. cbn [app].
    change (invoked (Console ?x :: ?r)) with (invoked r). by rewrite invoked_calls. }
  eexists s', out1, _. split; [exact Hrun|]. split; [exact Hl|].
  split; [by eapply seq_run; [exact Hrun|apply notify_run]|].
  split; [reflexivity|]. split; [exact Hinv|].
  rewrite Hinv. intros [Hne _]%list_elem_of_filter. done.
Qed.

Lemma unsubscribed_observer_is_not_notified_witness :
  ∃ s' out1 out,
    unsubscribe observer2 both_subscribed = Some (tt, s', out1)
    ∧ observers s' = filter (λ x, x ≠ observer2) (observers both_subscribed)
    ∧ (unsubscribe observer2;; notify 3) both_subscribed = Some (tt, s', out)
    ∧ out = out1 ++ Console "Subject: Notifying observers..."
                  :: concat (map (λ o, Call o s' :: reaction o s') (observers s'))
    ∧ invoked out = filter (λ x, x ≠ observer2) (observers both_subscribed)
    ∧ (observer2 ∉ invoked out).
Proof.
  apply (unsubscribed_observer_is_not_notified both_subscribed observer2 3).
  - apply (bool_decide_unpack _). vm_compute. exact I.
  - simpl. lia.
Defined.

(** X5. With observers of the two classes of the script, [subscribe]
    followed by [notify] runs [update] on the observer passed: the output is
    the line of [subscribe], the opening line of [notify], then for each
    subscriber its call and what its [update] writes, the observer passed
    being among them, at its old position when it was subscribed already and
    last when it is new. *)
Theorem subscribed_observer_is_notified
    (s : Subject) (observer : Observer) (budget : nat) :
  (S (length (observers s)) < budget)%nat →
  ∃ s' out1 out,
    subscribe observer s = Some (tt, s', out1)
    ∧ observers s'
      = (if bool_decide (observer ∈ observers s) then observers s
         else observers s ++ [observer])
    ∧ (subscribe observer;; notify budget) s = Some (tt, s', out)
    ∧ out = out1 ++ Console "Subject: Notifying observers..."
                  :: concat (map (λ o, Call o s' :: reaction o s') (observers s'))
    ∧ invoked out = observers s'
    ∧ observer ∈ invoked out.
Proof.
  intros Hlen. destruct (subscribe_observers observer s) as [out1 Hrun].
  set (s' := with_observers s (subscribed (observers s) observer)) in *.
  assert (Hlen' : (length (observers s') < budget)%nat).
  { cbn. unfold subscribed. case_bool_decide; [lia|]. rewrite length_app. simpl. lia. }
  assert (Hout1 : invoked out1 = []).
  { rewrite subscribe_run in Hrun. by injection Hrun as _ <-. }
  assert (Hinv : invoked (out1 ++ Console "Subject: Notifying observers..."
                    :: concat (map (λ o, Call o s' :: reaction o s') (observers s')))
                 = observers s').
  { rewrite invoked_app, Hout1. cbn [app].
    change (invoked (Console ?x :: ?r)) with (invoked r). by rewrite invoked_calls. }
  eexists s', out1, _. split; [exact Hrun|]. split; [reflexivity|].
  split; [by eapply seq_run; [exact Hrun|apply notify_run]|].
  split; [reflexivity|]. split; [exact Hinv|].
  rewrite Hinv. cbn. apply elem_of_subscribed. by right.
Qed.

Lemma subscribed_observer_is_notified_witness :
  ∃ s' out1 out,
    subscribe observer3 both_subscribed = Some (tt, s', out1)
    ∧ observers s'
      = (if bool_decide (observer3 ∈ observers both_subscribed)
         then observers both_subscribed
         else observers both_subscribed ++ [observer3])
    ∧ (subscribe observer3;; notify 4) both_subscribed = Some (tt, s', out)
    ∧ out = out1 ++ Console "Subject: Notifying observers..."
                  :: concat (map (λ o, Call o s' :: reaction o s') (observers s'))
    ∧ invoked out = observers s'
    ∧ observer3 ∈ invoked out.
Proof.
  apply (subscribed_observer_is_notified both_subscribed observer3 4).
  simpl. lia.
Defined.

(** X6. What [notify] prints: its opening line, then one reaction line per
    subscriber of the class the state selects (A below 7, B from 7 on), in
    subscription order; the other subscribers, and all of them on a subject
    that is no [ConcreteSubject], print nothing. *)
Theorem notify_console (s : Subject) (budget : nat) :
  (length (observers s) < budget)%nat →
  console_of (notify budget) s
  = Some ("Subject: Notifying observers..."
            :: if instanceof s ConcreteSubject
               then map (λ o, reaction_line (oclass o) (state s))
                      (filter (λ o, oclass o = reacting_class (state s)) (observers s))
               else []).
Proof.
  intros Hlen. unfold console_of. rewrite notify_run by done.
  change (console_lines (Console ?l :: ?r)) with (l :: console_lines r).
  by rewrite calls_console.
Qed.

Lemma notify_console_witness :
  console_of (notify 4) subscribed_twice
  = Some ("Subject: Notifying observers..."
            :: if instanceof subscribed_twice ConcreteSubject
               then map (λ o, reaction_line (oclass o) (state subscribed_twice))
                      (filter (λ o, oclass o = reacting_class (state subscribed_twice))
                         (observers subscribed_twice))
               else []).
Proof. apply (notify_console subscribed_twice 4). simpl. lia. Defined.

(** X7. With observers of the two classes of the script,
    [someBusinessLogic] changes the state before it notifies: every
    [update] call receives the subject with the new state stored, every
    subscriber is called, and the reaction lines printed after the three
    lines of the subject are those the new state selects, showing the new
    value. *)
Theorem someBusinessLogic_notifies_new_state
    (random : spec_float) (budget : nat) (s : Subject) :
  is_Math_random random = true → (length (observers s) < budget)%nat →
  ∃ s' out, someBusinessLogic random budget s = Some (tt, s', out)
    ∧ s' = with_state s (drawn_state random)
    ∧ invoked out = observers s
    ∧ (∀ o arg, Call o arg ∈ out → arg = s')
    ∧ console_lines out
      = business_lines (drawn_state random)
        ++ if instanceof s ConcreteSubject
           then map (λ o, reaction_line (oclass o) (drawn_state random))
                  (filter (λ o, oclass o = reacting_class (drawn_state random))
                     (observers s))
           else [].
Proof.
  intros _ Hlen. rewrite someBusinessLogic_run by done. eexists _, _.
  split; [done|]. split; [done|]. split; [|split].
  - rewrite invoked_app. apply invoked_calls.
  - intros o arg [Hin|Hin]%elem_of_app.
    + repeat (apply elem_of_cons in Hin as [Hin|Hin]; [discriminate|]).
      by apply elem_of_nil in Hin.
    + by eapply calls_arg.
  - rewrite console_lines_app, calls_console. done.
Qed.

Lemma someBusinessLogic_notifies_new_state_witness :
  ∃ s' out, someBusinessLogic one_half 3 both_subscribed = Some (tt, s', out)
    ∧ s' = with_state both_subscribed (drawn_state one_half)
    ∧ invoked out = observers both_subscribed
    ∧ (∀ o arg, Call o arg ∈ out → arg = s')
    ∧ console_lines out
      = business_lines (drawn_state one_half)
        ++ if instanceof both_subscribed ConcreteSubject
           then map (λ o, reaction_line (oclass o) (drawn_state one_half))
                  (filter (λ o, oclass o = reacting_class (drawn_state one_half))
                     (observers both_subscribed))
           else [].
Proof.
  apply (someBusinessLogic_notifies_new_state one_half 3 both_subscribed).
  - vm_compute. reflexivity.
  - simpl. lia.
Defined.

(** X8. The state stored at line 74 is the floor of eleven times the drawn
    number or that floor plus one; the second happens, for instance for the
    double nearest to [3 / 11], which lies below [3 / 11] and gives [3]. *)
Theorem drawn_state_floor_or_next (random : spec_float) :
  is_Math_random random = true →
  drawn_state random = exact_floor 0 random
  ∨ drawn_state random = exact_floor 0 random + 1.
Proof.
  intros Hr. pose proof (drawn_state_cell random Hr) as [Hlo Hhi].
  enough (exact_floor 8 random <= exact_floor 0 random + 1) by lia.
  clear Hlo Hhi. revert Hr.
  destruct random as [[|]|[|]| |[|] m e]; intros Hr; try discriminate Hr; [cbn; lia|].
  apply is_Math_random_finite in Hr as (_ & He & _).
  unfold exact_floor. rewrite <- (Z.opp_involutive e).
  rewrite !Z.shiftl_opp_r, !Z.shiftr_div_pow2 by lia.
  assert (H2e : 2 ^ 52 <= 2 ^ (- e)) by (apply Z.pow_le_mono_r; lia).
  rewrite pow2_52 in H2e.
  transitivity ((11 * Z.pos m + 0 + 1 * 2 ^ (- e)) / 2 ^ (- e)).
  - apply Z.div_le_mono; lia.
  - rewrite Z.div_add by lia. lia.
Qed.

Lemma drawn_state_floor_or_next_witness :
  is_Math_random below_three_elevenths = true
  ∧ exact_floor 0 below_three_elevenths = 2
  ∧ drawn_state below_three_elevenths = 3
  ∧ (drawn_state below_three_elevenths = exact_floor 0 below_three_elevenths
     ∨ drawn_state below_three_elevenths = exact_floor 0 below_three_elevenths + 1).
Proof.
  split; [vm_compute; reflexivity|]. split; [vm_compute; reflexivity|].
  split; [vm_compute; reflexivity|].
  apply (drawn_state_floor_or_next below_three_elevenths). vm_compute. reflexivity.
Defined.

Lemma someBusinessLogic_console (random : spec_float) (budget : nat) (s : Subject) :
  (length (observers s) < budget)%nat →
  ∃ out, someBusinessLogic random budget s
         = Some (tt, with_state s (drawn_state random), out)
    ∧ console_lines out
      = business_lines (drawn_state random)
        ++ if instanceof s ConcreteSubject
           then map (λ o, reaction_line (oclass o) (drawn_state random))
                  (filter (λ o, oclass o = reacting_class (drawn_state random))
                     (observers s))
           else [].
Proof.
  intros Hlen. rewrite someBusinessLogic_run by done. eexists. split; [done|].
  rewrite console_lines_app, calls_console. done.
Qed.

(** X9. The client code of lines 113-131, for any three draws: it runs to
    its end and leaves the subject with observer A alone subscribed and the
    third drawn state.  Each of the first two rounds prints exactly one
    reaction line, from whichever observer the state selects; the third
    round, after B was unsubscribed, prints A's line when the state is below
    7 and no reaction line otherwise. *)
Theorem client_code_output (random1 random2 random3 : spec_float) :
  is_Math_random random1 = true → is_Math_random random2 = true →
  is_Math_random random3 = true →
  let v1 := drawn_state random1 in
  let v2 := drawn_state random2 in
  let v3 := drawn_state random3 in
  ∃ out,
    client_code random1 random2 random3 3 new_ConcreteSubject
    = Some (tt, {| class := ConcreteSubject; state := v3; observers := [observer1] |}, out)
    ∧ 0 <= v3 <= 10
    ∧ console_lines out
      = ["-- Create subject instance"; "-- Create observer A";
         "Subject: Subscribed an observer."; "-- Create observer B";
         "Subject: Subscribed an observer."; "-- Do some logic"]
        ++ business_lines v1 ++ [reaction_line (reacting_class v1) v1]
        ++ business_lines v2 ++ [reaction_line (reacting_class v2) v2]
        ++ ["-- Unsubscribe observer B"; "Subject: Unsubscribed an observer."]
        ++ business_lines v3
        ++ (if v3 <? 7 then [reaction_line ConcreteObserverA v3] else []).
Proof.
  intros _ _ Hr3 v1 v2 v3.
  set (s2 := {| class := ConcreteSubject; state := 0; observers := [observer1; observer2] |}).
  set (s4 := {| class := ConcreteSubject; state := v2; observers := [observer1] |}).
  destruct (someBusinessLogic_console random1 3 s2) as (out1 & Hrun1 & Hc1); [simpl; lia|].
  destruct (someBusinessLogic_console random2 3 (with_state s2 v1))
    as (out2 & Hrun2 & Hc2); [simpl; lia|].
  destruct (someBusinessLogic_console random3 3 s4) as (out3 & Hrun3 & Hc3); [simpl; lia|].
  eexists. split; [|split; [apply floor_product_range, Hr3|]].
  - unfold client_code.
    do 5 (eapply seq_run; [reflexivity|]).
    eapply seq_run; [reflexivity|].
    eapply seq_run; [exact Hrun1|].
    eapply seq_run; [exact Hrun2|].
    eapply seq_run; [reflexivity|].
    eapply seq_run; [reflexivity|].
    exact Hrun3.
  - rewrite !console_lines_app, Hc1, Hc2, Hc3.
    fold v1 v2 v3. unfold reacting_class. cbn.
    destruct (v1 <? 7), (v2 <? 7), (v3 <? 7); reflexivity.
Qed.

Lemma client_code_output_witness :
  ∃ out,
    client_code (draw_for 3) (draw_for 9) (draw_for 8) 3 new_ConcreteSubject
    = Some (tt, {| class := ConcreteSubject; state := drawn_state (draw_for 8);
                   observers := [observer1] |}, out)
    ∧ 0 <= drawn_state (draw_for 8) <= 10
    ∧ console_lines out
      = ["-- Create subject instance"; "-- Create observer A";
         "Subject: Subscribed an observer."; "-- Create observer B";
         "Subject: Subscribed an observer."; "-- Do some logic"]
        ++ business_lines (drawn_state (draw_for 3))
        ++ [reaction_line (reacting_class (drawn_state (draw_for 3)))
              (drawn_state (draw_for 3))]
        ++ business_lines (drawn_state (draw_for 9))
        ++ [reaction_line (reacting_class (drawn_state (draw_for 9)))
              (drawn_state (draw_for 9))]
        ++ ["-- Unsubscribe observer B"; "Subject: Unsubscribed an observer."]
        ++ business_lines (drawn_state (draw_for 8))
        ++ (if drawn_state (draw_for 8) <? 7
            then [reaction_line ConcreteObserverA (drawn_state (draw_for 8))] else []).
Proof.
  apply (client_code_output (draw_for 3) (draw_for 9) (draw_for 8));
    vm_compute; reflexivity.
Defined.

(** X10. [subscribe] is idempotent: after one call the observer is
    subscribed, and a second call with the same observer changes nothing
    more and writes the duplicate diagnostic. *)
Theorem subscribe_twice (s : Subject) (observer : Observer) :
  ∃ s1 out1, subscribe observer s = Some (tt, s1, out1)
    ∧ observer ∈ observers s1
    ∧ (subscribe observer;; subscribe observer) s
      = Some (tt, s1, out1 ++ [Console "Subject: Observer has been Subscribed already."]).
Proof.
  destruct (subscribe_observers observer s) as [out1 Hrun].
  assert (Hin : observer ∈ observers (with_observers s (subscribed (observers s) observer))).
  { cbn. apply elem_of_subscribed. by right. }
  eexists _, out1. split; [exact Hrun|]. split; [exact Hin|].
  eapply seq_run; [exact Hrun|]. by apply subscribe_present.
Qed.

(** X11. On a duplicate-free subscriber list one [unsubscribe] removes the
    observer for good: it is no longer in the list, and a second call finds
    nothing, changes nothing and writes the unknown-observer diagnostic. *)
Theorem unsubscribe_twice (s : Subject) (observer : Observer) :
  NoDup (observers s) →
  ∃ s1 out1, unsubscribe observer s = Some (tt, s1, out1)
    ∧ (observer ∉ observers s1)
    ∧ (unsubscribe observer;; unsubscribe observer) s
      = Some (tt, s1, out1 ++ [Console "Subject: Nonexistent observer."]).
Proof.
  intros Hnd.
  assert (Hone : ∃ s1 out1, unsubscribe observer s = Some (tt, s1, out1)
                   ∧ (observer ∉ observers s1)).
  { destruct (unsubscribe_cases observer s) as [[Hout Hrun]|(l1 & l2 & Hl & Hl1 & Hrun)].
    - by eexists _, _.
    - eexists _, _. split; [exact Hrun|]. cbn. rewrite Hl in Hnd.
      apply NoDup_app in Hnd as (_ & _ & [Hl2 _]%NoDup_cons).
      rewrite elem_of_app. tauto. }
  destruct Hone as (s1 & out1 & Hrun & Hgone). exists s1, out1.
  split; [exact Hrun|]. split; [exact Hgone|].
  eapply seq_run; [exact Hrun|]. by apply unsubscribe_absent.
Qed.

Lemma unsubscribe_twice_witness :
  ∃ s1 out1, unsubscribe observer1 both_subscribed = Some (tt, s1, out1)
    ∧ (observer1 ∉ observers s1)
    ∧ (unsubscribe observer1;; unsubscribe observer1) both_subscribed
      = Some (tt, s1, out1 ++ [Console "Subject: Nonexistent observer."]).
Proof.
  apply (unsubscribe_twice both_subscribed observer1).
  apply (bool_decide_unpack _). vm_compute. exact I.
Defined.

(** X12. Managing subscriptions never notifies anyone: a sequence of
    [subscribe] and [unsubscribe] calls returns whatever the loop budget,
    makes no [update] call, writes exactly one console line per call, and
    leaves the state alone. *)
Theorem subscriptions_do_not_notify
    (ops : list operation) (budget : nat) (s : Subject) :
  forallb is_subscription ops = true →
  ∃ s' out, perform_all budget ops s = Some (tt, s', out)
    ∧ invoked out = []
    ∧ length (console_lines out) = length ops
    ∧ state s' = state s ∧ class s' = class s.
Proof.
  revert s. induction ops as [|op ops IH]; intros s Hsub.
  - by exists s, [].
  - cbn [forallb] in Hsub. apply andb_true_iff in Hsub as [Hop Hops].
    assert (Hstep : ∃ s1 line, perform budget op s = Some (tt, s1, [Console line])
                      ∧ state s1 = state s ∧ class s1 = class s).
    { destruct op as [o|o| |random]; try discriminate Hop; cbn [perform].
      - rewrite subscribe_run. eexists _, _. split; [done|]. by case_bool_decide.
      - destruct (unsubscribe_cases o s) as [[_ ->]|(l1 & l2 & _ & _ & ->)];
          by eexists _, _. }
    destruct Hstep as (s1 & line & Hrun1 & Hst1 & Hcls1).
    destruct (IH s1 Hops) as (s2 & out2 & Hrun2 & Hinv & Hlines & Hst2 & Hcls2).
    exists s2, ([Console line] ++ out2).
    split; [by apply (seq_run _ _ _ s1)|].
    rewrite invoked_app, console_lines_app, length_app, Hinv, Hlines.
    split_and!; [done|done|congruence|congruence].
Qed.

Lemma subscriptions_do_not_notify_witness :
  ∃ s' out,
    perform_all 0 [Subscribe observer1; Unsubscribe observer2; Subscribe observer1]
      both_subscribed = Some (tt, s', out)
    ∧ invoked out = []
    ∧ length (console_lines out) = 3%nat
    ∧ state s' = state both_subscribed ∧ class s' = class both_subscribed.
Proof.
  apply (subscriptions_do_not_notify
           [Subscribe observer1; Unsubscribe observer2; Subscribe observer1]
           0 both_subscribed).
  reflexivity.
Defined.

Lemma bounded_normal (m : positive) (e : Z) :
  bounded prec emax m e = true → -1074 < e → 2 ^ 52 <= Z.pos m.
Proof.
  unfold bounded, canonical_mantissa, fexp. rewrite emin_eq. unfold prec, emax.
  rewrite andb_true_iff, Z.eqb_eq. intros [Hcan _] He.
  assert (Hd : Z.pos (digits2_pos m) = 53) by lia.
  rewrite digits2_pos_size in Hd. pose proof (Pos.size_le m) as Hle.
  assert (H2 : 2 ^ Z.pos (Pos.size m) <= 2 * Z.pos m).
  { rewrite <- Pos2Z.inj_pow. lia. }
  rewrite Hd in H2. replace 53 with (52 + 1) in H2 by done.
  rewrite Z.pow_add_r in H2 by lia. lia.
Qed.

(** Two numbers [Math.random()] can return, the first below the second, are
    at least one unit in the last place of the first apart. *)
Lemma draws_apart (m1 m2 : positive) (e1 e2 : Z) :
  is_Math_random (S754_finite false m1 e1) = true →
  is_Math_random (S754_finite false m2 e2) = true →
  SFltb (S754_finite false m1 e1) (S754_finite false m2 e2) = true →
  e1 <= e2 ∧ Z.pos m1 + 1 <= Z.pos m2 * 2 ^ (e2 - e1).
Proof.
  intros Hr1 Hr2 [Hlt|[-> Hlt]]%SFltb_finite.
  - split; [lia|].
    pose proof (is_Math_random_finite _ _ Hr1) as (Hm1 & He1 & _).
    unfold is_Math_random in Hr2. apply andb_true_iff in Hr2 as [Hb2 _].
    apply bounded_normal in Hb2; [|lia].
    assert (H2 : 2 ^ 1 <= 2 ^ (e2 - e1)) by (apply Z.pow_le_mono_r; lia).
    replace 53 with (52 + 1) in Hm1 by done. rewrite Z.pow_add_r in Hm1 by lia.
    rewrite Z.pow_1_r in H2, Hm1. rewrite pow2_52 in Hm1, Hb2. nia.
  - split; [lia|]. rewrite Z.sub_diag. simpl. lia.
Qed.

(** X13. The state stored at line 74 never decreases when the drawn number
    grows: the draws that give one state form an unbroken run of numbers. *)
Theorem drawn_state_monotone (random1 random2 : spec_float) :
  is_Math_random random1 = true → is_Math_random random2 = true →
  SFltb random1 random2 = true →
  drawn_state random1 <= drawn_state random2.
Proof.
  intros Hr1 Hr2 Hlt.
  pose proof (drawn_state_cell random1 Hr1) as [_ Hhi].
  pose proof (drawn_state_cell random2 Hr2) as [Hlo _].
  pose proof (floor_product_range random2 Hr2) as [_ [Hpos _]].
  fold (drawn_state random2) in Hpos.
  destruct random1 as [[|]|[|]| |[|] m1 e1]; try discriminate Hr1.
  { cbn in Hhi. lia. }
  destruct random2 as [[|]|[|]| |[|] m2 e2]; try discriminate Hr2; [discriminate Hlt|].
  destruct (draws_apart m1 m2 e1 e2 Hr1 Hr2 Hlt) as [He Hm].
  apply is_Math_random_finite in Hr1 as (_ & He1 & _).
  apply is_Math_random_finite in Hr2 as (_ & He2 & _).
  etrans; [exact Hhi|]. etrans; [|exact Hlo]. unfold exact_floor.
  rewrite <- (Z.opp_involutive e1), <- (Z.opp_involutive e2).
  rewrite !Z.shiftl_opp_r, !Z.shiftr_div_pow2 by lia.
  assert (H2e2 : 0 < 2 ^ (- e2)) by (apply Z.pow_pos_nonneg; lia).
  assert (H2d : 0 < 2 ^ (e2 - e1)) by (apply Z.pow_pos_nonneg; lia).
  assert (Hsplit : 2 ^ (- e1) = 2 ^ (- e2) * 2 ^ (e2 - e1)).
  { rewrite <- Z.pow_add_r by lia. f_equal. lia. }
  rewrite <- (Z.div_mul_cancel_r (11 * Z.pos m2 + 0) (2 ^ (- e2)) (2 ^ (e2 - e1))) by lia.
  rewrite <- Hsplit. apply Z.div_le_mono; [apply Z.pow_pos_nonneg; lia|]. nia.
Qed.

Lemma drawn_state_monotone_witness :
  drawn_state below_three_elevenths <= drawn_state one_half.
Proof.
  apply (drawn_state_monotone below_three_elevenths one_half);
    vm_compute; reflexivity.
Defined.
